(** * steam-api.c: response dispatch, session recovery and batching

    A shallow embedding of [src/steam/steam-api.c] (the Steam web API
    client of the bitlbee plugin) and the properties of its parse
    callbacks, dispatcher, relogon path and summaries chunker.

    Conventions
    - a [gchar *] is an [option string]: [None] is the NULL pointer and
      [Some s] the contents of a NUL-terminated C string;
    - a [gint64] is a [Z] (the JSON tokenizer delivers 64-bit integers;
      the only operation the code performs on them is the conversion to
      the type of an enumeration, [to_SteamState]);
    - a [GSList *] is a [list]; the empty list is the NULL pointer;
    - the mutable objects reached through pointers ([SteamApi], the
      transport's queue) live in a [World] that every operation threads
      through; calls into the transport and into caller continuations
      are appended to the world's [trace] in program order. *)

From Stdlib Require Import ZArith List String Ascii Bool Lia Sorted.
From Stdlib Require Import DecimalString.
Import ListNotations.
Set Warnings "-register-all".
Open Scope string_scope.
Open Scope Z_scope.

(** ** GLib string comparison *)

Module GLib.

Definition byte_of (c : ascii) : Z := Z.of_N (N_of_ascii c).

(** [g_ascii_tolower]: only 'A'..'Z' are folded. *)
Definition g_ascii_tolower (c : ascii) : ascii :=
  let n := N_of_ascii c in
  if (N.leb 65 n && N.leb n 90)%bool then ascii_of_N (n + 32) else c.

(** The loop of [g_ascii_strcasecmp] on two non-NULL strings: compare the
    folded bytes while both strings last, then the bytes the loop stopped
    at (the terminator counts as 0). *)
Fixpoint ascii_strcasecmp (s1 s2 : string) : Z :=
  match s1, s2 with
  | String a r1, String b r2 =>
      let c1 := byte_of (g_ascii_tolower a) in
      let c2 := byte_of (g_ascii_tolower b) in
      if c1 =? c2 then ascii_strcasecmp r1 r2 else c1 - c2
  | String a _, EmptyString => byte_of a - 0
  | EmptyString, String b _ => 0 - byte_of b
  | EmptyString, EmptyString => 0
  end.

(** [g_ascii_strcasecmp]: both [g_return_val_if_fail (s != NULL, 0)]
    guards answer 0 for a NULL argument. *)
Definition g_ascii_strcasecmp (s1 s2 : option string) : Z :=
  match s1, s2 with
  | Some a, Some b => ascii_strcasecmp a b
  | _, _ => 0
  end.

(** What ["%s"] prints for a [gchar *] argument. *)
Definition fmt_s (s : option string) : string :=
  match s with
  | Some x => x
  | None => "(null)"
  end.

(** Modelled from the spec: the error codes of steam-api.h (not part of
    the sources), by the names this file uses. *)
Inductive SteamApiError :=
| STEAM_API_ERROR_AUTH
| STEAM_API_ERROR_AUTH_REQ
| STEAM_API_ERROR_FRIENDS
| STEAM_API_ERROR_LOGON
| STEAM_API_ERROR_RELOGON
| STEAM_API_ERROR_LOGOFF
| STEAM_API_ERROR_MESSAGE
| STEAM_API_ERROR_POLL
| STEAM_API_ERROR_SUMMARIES
| STEAM_API_ERROR_PARSER.

(** A [GError]: domain quark (by its string), code and message. A code is
    one of this file's, or a number of another domain (the transport's). *)
Inductive GErrorCode :=
| ApiCode (e : SteamApiError)
| ForeignCode (n : Z).

Record GError := mkGError {
  domain : string;
  code : GErrorCode;
  message : string
}.

(** [g_set_error (&slot, ...)]: a slot that already holds an error is
    left as it is. *)
Definition g_set_error (slot : option GError) (d : string) (c : GErrorCode)
    (msg : string) : option GError :=
  match slot with
  | None => Some (mkGError d c msg)
  | Some e => Some e
  end.

(** [g_propagate_error (&dest, src)]. *)
Definition g_propagate_error (dest : option GError) (src : GError)
    : option GError :=
  match dest with
  | None => Some src
  | Some e => Some e
  end.

(** [g_prefix_error (&slot, prefix)]. *)
Definition g_prefix_error (slot : option GError) (prefix : string)
    : option GError :=
  match slot with
  | None => None
  | Some e => Some (mkGError (domain e) (code e) (prefix ++ message e))
  end.

End GLib.
Import GLib.

(** [steam_api_error_quark]. *)
Definition STEAM_API_ERROR : string := "steam-api-error-quark".

(** ** JSON documents (the tokenizer's [json_value]) *)

Inductive json_type :=
| json_none_t
| json_object_t
| json_array_t
| json_integer_t
| json_double_t
| json_string_t
| json_boolean_t
| json_null_t.

(** An object keeps its members in document order, duplicates included.
    The payload of a double is never read by this file and is left out. *)
Inductive json_value :=
| json_none
| json_object (members : list (string * json_value))
| json_array (values : list json_value)
| json_integer (i : Z)
| json_double
| json_string (s : string)
| json_boolean (b : bool)
| json_null.

Definition json_typeof (v : json_value) : json_type :=
  match v with
  | json_none => json_none_t
  | json_object _ => json_object_t
  | json_array _ => json_array_t
  | json_integer _ => json_integer_t
  | json_double => json_double_t
  | json_string _ => json_string_t
  | json_boolean _ => json_boolean_t
  | json_null => json_null_t
  end.

Definition json_type_eqb (a b : json_type) : bool :=
  match a, b with
  | json_none_t, json_none_t
  | json_object_t, json_object_t
  | json_array_t, json_array_t
  | json_integer_t, json_integer_t
  | json_double_t, json_double_t
  | json_string_t, json_string_t
  | json_boolean_t, json_boolean_t
  | json_null_t, json_null_t => true
  | _, _ => false
  end.

(** ** steam-util.h: typed member access *)

Module SteamUtil.

Fixpoint assoc_first (name : string) (ms : list (string * json_value))
    : option json_value :=
  match ms with
  | [] => None
  | (k, v) :: rest => if String.eqb k name then Some v else assoc_first name rest
  end.

(** Modelled from the spec: the member lookup behind the
    [steam_util_json_*] helpers (steam-util.c is not part of the sources).
    The first member called [name] of an object; nothing for any other
    kind of value. *)
Definition json_o_get (json : json_value) (name : string) : option json_value :=
  match json with
  | json_object ms => assoc_first name ms
  | _ => None
  end.

(** Modelled from the spec: [steam_util_json_val] (steam-util.c is not part
    of the sources). Succeeds when the member exists and has the wanted
    type; the out-pointer is NULL otherwise. *)
Definition steam_util_json_val (json : json_value) (name : string)
    (type : json_type) : option json_value :=
  match json_o_get json name with
  | Some v => if json_type_eqb (json_typeof v) type then Some v else None
  | None => None
  end.

(** Modelled from the spec: [steam_util_json_int] (steam-util.c is not part
    of the sources). [Some i] is a TRUE return with [*i] written. The
    callers that ignore the return value and then read the variable
    (the summaries callback) rely on the helper writing it on failure
    too; [steam_util_json_int_out] is the value left in [*i]: the member,
    or 0. *)
Definition steam_util_json_int (json : json_value) (name : string) : option Z :=
  match steam_util_json_val json name json_integer_t with
  | Some (json_integer i) => Some i
  | _ => None
  end.

(** Modelled from the spec: what [steam_util_json_int] (steam-util.c, not
    part of the sources) leaves in [*i]: the member, or 0 when the lookup
    fails. *)
Definition steam_util_json_int_out (json : json_value) (name : string) : Z :=
  match steam_util_json_int json name with
  | Some i => i
  | None => 0
  end.

(** Modelled from the spec: [steam_util_json_str] (steam-util.c is not part
    of the sources). [Some s] is a TRUE return with [*str] pointing at the
    member's text; [None] is a FALSE return, which leaves [*str] NULL
    (the message and poll callbacks read [str] after a failed lookup). *)
Definition steam_util_json_str (json : json_value) (name : string)
    : option string :=
  match steam_util_json_val json name json_string_t with
  | Some (json_string s) => Some s
  | _ => None
  end.

(** Modelled from the spec: [steam_util_json_scmp] (steam-util.c is not part
    of the sources). Fetches the string member into [*str] and answers
    whether it equals [match]; the spec words every use as "equals", and
    the logon callback passes a session field that is still NULL as
    [match], which equals nothing. The pair is (return value, [*str]). *)
Definition steam_util_json_scmp (json : json_value) (name : string)
    (match_ : option string) : bool * option string :=
  match steam_util_json_str json name with
  | Some s =>
      (match match_ with
       | Some m => String.eqb m s
       | None => false
       end, Some s)
  | None => (false, None)
  end.

End SteamUtil.
Import SteamUtil.

(** ** steam-api.h: enumerations and records *)

(** Modelled from the spec: the message kinds of steam-api.h (not part of
    the sources), in the order of the spec's data model, which is also the
    order of the initialisers of the name table below;
    [STEAM_MESSAGE_TYPE_LAST] closes the enumeration. *)
Inductive SteamMessageType :=
| STEAM_MESSAGE_TYPE_SAYTEXT
| STEAM_MESSAGE_TYPE_EMOTE
| STEAM_MESSAGE_TYPE_LEFT_CONV
| STEAM_MESSAGE_TYPE_RELATIONSHIP
| STEAM_MESSAGE_TYPE_STATE
| STEAM_MESSAGE_TYPE_TYPING
| STEAM_MESSAGE_TYPE_LAST.

(** Modelled from the spec: the presence states of steam-api.h (not part of
    the sources), in the order of the spec's enumeration and of the
    initialisers of the name table. [STEAM_STATE_LAST] is the size of
    that table and the bound of the lookup loop, not a presence state. *)
Inductive SteamState :=
| STEAM_STATE_OFFLINE
| STEAM_STATE_ONLINE
| STEAM_STATE_BUSY
| STEAM_STATE_AWAY
| STEAM_STATE_SNOOZE.

(** An assignment of a [gint64] to a member of type [SteamState]
    ([sm.state = in], [ss.state = in]) converts to the enumeration's
    integer type. The enumeration has no negative enumerator, so the
    compiler (GCC, which GLib code is built with) gives it a 32-bit
    unsigned representation, and the value is reduced modulo 2^32. *)
Definition to_SteamState (in_ : Z) : Z := in_ mod 2 ^ 32.

(** [for (i = 0; i < ..._LAST; i++)] visits these, in this order. *)
Definition message_types_below_LAST : list SteamMessageType :=
  [STEAM_MESSAGE_TYPE_SAYTEXT; STEAM_MESSAGE_TYPE_EMOTE;
   STEAM_MESSAGE_TYPE_LEFT_CONV; STEAM_MESSAGE_TYPE_RELATIONSHIP;
   STEAM_MESSAGE_TYPE_STATE; STEAM_MESSAGE_TYPE_TYPING].

Definition states_below_LAST : list SteamState :=
  [STEAM_STATE_OFFLINE; STEAM_STATE_ONLINE; STEAM_STATE_BUSY;
   STEAM_STATE_AWAY; STEAM_STATE_SNOOZE].

(** [STEAM_API_TYPE_LAST] is the size of the dispatch table; no context is
    ever created with it. *)
Inductive SteamApiType :=
| STEAM_API_TYPE_AUTH
| STEAM_API_TYPE_FRIENDS
| STEAM_API_TYPE_LOGON
| STEAM_API_TYPE_RELOGON
| STEAM_API_TYPE_LOGOFF
| STEAM_API_TYPE_MESSAGE
| STEAM_API_TYPE_POLL
| STEAM_API_TYPE_SUMMARIES.

(** An opaque [gpointer] (the caller's user data); NULL is 0. *)
Definition gpointer := Z.
Definition NULL : gpointer := 0.

(** A caller continuation, by identity; [None] is a NULL function
    pointer. *)
Definition FuncPtr := nat.

(** Modelled from the spec: [SteamMessage] of steam-api.h (not part of the
    sources), with the members this file assigns. The [state] member
    holds the number of the presence state, as [to_SteamState] leaves
    it. *)
Module Msg.
Record t := mk {
  type : SteamMessageType;
  steamid : option string;
  text : option string;
  nick : option string;
  state : Z
}.
(** [memset (&sm, 0, sizeof sm)]. *)
Definition zero : t := mk STEAM_MESSAGE_TYPE_SAYTEXT None None None 0.
Definition set_type (m : t) (v : SteamMessageType) : t :=
  mk v (steamid m) (text m) (nick m) (state m).
Definition set_steamid (m : t) (v : option string) : t :=
  mk (type m) v (text m) (nick m) (state m).
Definition set_text (m : t) (v : option string) : t :=
  mk (type m) (steamid m) v (nick m) (state m).
Definition set_nick (m : t) (v : option string) : t :=
  mk (type m) (steamid m) (text m) v (state m).
Definition set_state (m : t) (v : Z) : t :=
  mk (type m) (steamid m) (text m) (nick m) v.
End Msg.

(** Modelled from the spec: [SteamSummary] of steam-api.h (not part of the
    sources), with the members this file assigns. *)
Module Summary.
Record t := mk {
  steamid : option string;
  game : option string;
  server : option string;
  nick : option string;
  profile : option string;
  fullname : option string;
  state : Z
}.
End Summary.

(** What [priv->rdata] points at. An empty list is the NULL [GSList]. *)
Inductive RData :=
| RNull
| RStrings (l : list string)
| RMessages (l : list Msg.t)
| RSummaries (l : list Summary.t).

Definition rdata_is_null (r : RData) : bool :=
  match r with
  | RNull | RStrings [] | RMessages [] | RSummaries [] => true
  | _ => false
  end.

Inductive GDestroyNotify :=
| g_slist_free
| steam_slist_free_full.

(** ** steam-http.h: requests as this file builds them *)

(** Modelled from the spec: the string macros of steam-api.h (not part of
    the sources); their text is unknown, so a request records which macro
    it was given. *)
Inductive ApiMacro :=
| STEAM_API_HOST
| STEAM_API_FORMAT
| STEAM_API_PATH_AUTH
| STEAM_API_PATH_FRIENDS
| STEAM_API_PATH_LOGON
| STEAM_API_PATH_LOGOFF
| STEAM_API_PATH_MESSAGE
| STEAM_API_PATH_POLL
| STEAM_API_PATH_SUMMARIES.

Inductive ParamVal :=
| PStr (s : option string)
| PMacro (m : ApiMacro).

(** Modelled from the spec: the request flags of steam-http.h (not part of
    the sources), by name. *)
Inductive SteamHttpReqFlag :=
| STEAM_HTTP_REQ_FLAG_QUEUED
| STEAM_HTTP_REQ_FLAG_POST
| STEAM_HTTP_REQ_FLAG_SSL.

Module Req.
(** Modelled from the spec: [SteamHttpReq] of steam-http.h (not part of the
    sources). [flags] lists the flag macros or-ed together; [err] and
    [body] are the transport's outcome, filled in before the completion
    handler runs. *)
Record t := mk {
  host : ApiMacro;
  port : Z;
  path : ApiMacro;
  params : list (string * ParamVal);
  flags : list SteamHttpReqFlag;
  err : option GError;
  body : option string
}.
Definition set_flags (r : t) (f : list SteamHttpReqFlag) : t :=
  mk (host r) (port r) (path r) (params r) f (err r) (body r).
Definition set_err (r : t) (e : option GError) : t :=
  mk (host r) (port r) (path r) (params r) (flags r) e (body r).
End Req.

(** Modelled from the spec: [steam_http_req_new] (steam-http.c is not part
    of the sources). The handler is always [steam_api_cb]; the context
    travels with the request in the [HttpReqSend] event. *)
Definition steam_http_req_new (host : ApiMacro) (port : Z) (path : ApiMacro)
    : Req.t :=
  Req.mk host port path [] [] None None.

(** Modelled from the spec: [steam_http_req_params_set (req, n, k1, v1,
    ...)] (steam-http.c is not part of the sources) adds the pairs to the
    request's parameters. *)
Definition steam_http_req_params_set (r : Req.t)
    (kvs : list (string * ParamVal)) : Req.t :=
  Req.mk (Req.host r) (Req.port r) (Req.path r) (Req.params r ++ kvs)
         (Req.flags r) (Req.err r) (Req.body r).

(** ** Session, request context, world *)

(** Modelled from the spec: [SteamApi] of steam-api.h (not part of the
    sources): the session's token, queue id, account id and last message
    id. The transport handle [http] is the world's queue and trace. *)
Module Api.
Record t := mk {
  token : option string;
  umqid : option string;
  steamid : option string;
  lmid : Z
}.
Definition set_token (a : t) (v : option string) : t :=
  mk v (umqid a) (steamid a) (lmid a).
Definition set_umqid (a : t) (v : option string) : t :=
  mk (token a) v (steamid a) (lmid a).
Definition set_steamid (a : t) (v : option string) : t :=
  mk (token a) (umqid a) v (lmid a).
Definition set_lmid (a : t) (v : Z) : t :=
  mk (token a) (umqid a) (steamid a) v.
End Api.

(** [SteamApiPriv]; [priv->api] is the world's session. *)
Module Priv.
Record t := mk {
  type : SteamApiType;
  err : option GError;
  func : option FuncPtr;
  data : gpointer;
  rdata : RData;
  rfunc : option GDestroyNotify;
  req : option Req.t
}.
Definition set_err (p : t) (e : option GError) : t :=
  mk (type p) e (func p) (data p) (rdata p) (rfunc p) (req p).
Definition set_result (p : t) (r : RData) (f : GDestroyNotify) : t :=
  mk (type p) (err p) (func p) (data p) r (Some f) (req p).
Definition set_req (p : t) (r : option Req.t) : t :=
  mk (type p) (err p) (func p) (data p) (rdata p) (rfunc p) r.
End Priv.

(** Calls that leave this file, in program order. *)
Inductive Event :=
| HttpQueuePause (pause : bool)
| HttpReqSend (req : Req.t) (data : Priv.t)
| HttpReqResend (req : option Req.t)
| HttpReqFree (req : Req.t)
| CallApiFunc (func : FuncPtr) (api : Api.t) (err : option GError)
    (data : gpointer)
| CallListFunc (func : FuncPtr) (api : Api.t) (list : RData)
    (err : option GError) (data : gpointer).

Record World := mkWorld {
  api : Api.t;
  queue_paused : bool;
  trace : list Event
}.

Definition emit (w : World) (e : Event) : World :=
  mkWorld (api w) (queue_paused w) (trace w ++ [e]).

Definition with_api (w : World) (a : Api.t) : World :=
  mkWorld a (queue_paused w) (trace w).

(** Modelled from the spec: [steam_http_queue_pause (http, pause)]
    (steam-http.c is not part of the sources) sets whether the outbound
    queue is paused. *)
Definition steam_http_queue_pause (w : World) (pause : bool) : World :=
  mkWorld (api w) pause (trace w ++ [HttpQueuePause pause]).

(** Modelled from the spec: [steam_http_req_send] (steam-http.c is not part
    of the sources) hands the request to the transport. *)
Definition steam_http_req_send (w : World) (req : Req.t) (data : Priv.t)
    : World :=
  emit w (HttpReqSend req data).

(** Modelled from the spec: [steam_http_req_resend] (steam-http.c is not
    part of the sources) submits a request again. *)
Definition steam_http_req_resend (w : World) (req : option Req.t) : World :=
  emit w (HttpReqResend req).

(** Modelled from the spec: [steam_http_req_free] (steam-http.c is not part
    of the sources) abandons a request; its context is released through
    [steam_api_priv_free], which calls no continuation. *)
Definition steam_http_req_free (w : World) (req : Req.t) : World :=
  emit w (HttpReqFree req).

Definition steam_api_priv_new (type : SteamApiType) (func : option FuncPtr)
    (data : gpointer) : Priv.t :=
  Priv.mk type None func data RNull None None.

(** ** Name tables and reverse lookup *)

Definition steam_api_type_str (type : SteamApiType) : string :=
  match type with
  | STEAM_API_TYPE_AUTH => "Authentication"
  | STEAM_API_TYPE_FRIENDS => "Friends"
  | STEAM_API_TYPE_LOGON => "Logon"
  | STEAM_API_TYPE_RELOGON => "Relogon"
  | STEAM_API_TYPE_LOGOFF => "Logoff"
  | STEAM_API_TYPE_MESSAGE => "Message"
  | STEAM_API_TYPE_POLL => "Polling"
  | STEAM_API_TYPE_SUMMARIES => "Summaries"
  end.

(** The guard of [steam_message_type_str] lets [STEAM_MESSAGE_TYPE_LAST]
    through ([type > LAST] is false) and the table has no entry for it:
    [None] stands for that read past the table. *)
Definition steam_message_type_str (type : SteamMessageType) : option string :=
  match type with
  | STEAM_MESSAGE_TYPE_SAYTEXT => Some "saytext"
  | STEAM_MESSAGE_TYPE_EMOTE => Some "emote"
  | STEAM_MESSAGE_TYPE_LEFT_CONV => Some "leftconversation"
  | STEAM_MESSAGE_TYPE_RELATIONSHIP => Some "personarelationship"
  | STEAM_MESSAGE_TYPE_STATE => Some "personastate"
  | STEAM_MESSAGE_TYPE_TYPING => Some "typing"
  | STEAM_MESSAGE_TYPE_LAST => None
  end.

Definition steam_state_str (state : SteamState) : option string :=
  match state with
  | STEAM_STATE_OFFLINE => Some "Offline"
  | STEAM_STATE_ONLINE => Some "Online"
  | STEAM_STATE_BUSY => Some "Busy"
  | STEAM_STATE_AWAY => Some "Away"
  | STEAM_STATE_SNOOZE => Some "Snooze"
  end.

(** The lookup loop shared by the two [_from_str] functions: the first
    enumerator whose name compares equal, else [dflt]. *)
Fixpoint first_named {E : Type} (str_of : E -> option string)
    (name : option string) (enumerators : list E) (dflt : E) : E :=
  match enumerators with
  | [] => dflt
  | i :: rest =>
      if g_ascii_strcasecmp name (str_of i) =? 0 then i
      else first_named str_of name rest dflt
  end.

Definition steam_message_type_from_str (type : option string)
    : SteamMessageType :=
  match type with
  | None => STEAM_MESSAGE_TYPE_LAST
  | Some _ =>
      first_named steam_message_type_str type message_types_below_LAST
                  STEAM_MESSAGE_TYPE_LAST
  end.

Definition steam_state_from_str (state : option string) : SteamState :=
  match state with
  | None => STEAM_STATE_OFFLINE
  | Some _ =>
      first_named steam_state_str state states_below_LAST STEAM_STATE_OFFLINE
  end.

(** ** Relogon *)

Definition steam_api_relogon (w : World) : World :=
  let priv := steam_api_priv_new STEAM_API_TYPE_RELOGON None NULL in
  let req := steam_http_req_new STEAM_API_HOST 443 STEAM_API_PATH_LOGON in
  let req := steam_http_req_params_set req
    [("format", PMacro STEAM_API_FORMAT);
     ("access_token", PStr (Api.token (api w)));
     ("umqid", PStr (Api.umqid (api w)))] in
  let req := Req.set_flags req
    [STEAM_HTTP_REQ_FLAG_POST; STEAM_HTTP_REQ_FLAG_SSL] in
  let w := steam_http_queue_pause w true in
  steam_http_req_send w req priv.

(** ** Parse callbacks

    A callback receives the context and the document, may write to the
    context and to the world, and returns the deliver-now flag. *)

Definition SteamParseFunc : Type :=
  Priv.t -> json_value -> World -> bool * Priv.t * World.

Definition set_api_error (priv : Priv.t) (e : SteamApiError) (msg : string)
    : Priv.t :=
  Priv.set_err priv (g_set_error (Priv.err priv) STEAM_API_ERROR (ApiCode e) msg).

Definition steam_api_auth_cb : SteamParseFunc := fun priv json w =>
  match steam_util_json_str json "access_token" with
  | Some str => (true, priv, with_api w (Api.set_token (api w) (Some str)))
  | None =>
      let err :=
        if fst (steam_util_json_scmp json "x_errorcode"
                  (Some "steamguard_code_required"))
        then STEAM_API_ERROR_AUTH_REQ
        else STEAM_API_ERROR_AUTH in
      let str := steam_util_json_str json "error_description" in
      (true, set_api_error priv err (fmt_s str), w)
  end.

(** One round of the friends loop: [Some id] is prepended, [None] is
    [continue]. *)
Definition steam_api_friends_entry (je : json_value) : option string :=
  if negb (fst (steam_util_json_scmp je "relationship" (Some "friend")))
  then None
  else steam_util_json_str je "steamid".

(** [for (...) { ...; l = g_slist_prepend (l, x); }] with a body that may
    [continue]. *)
Definition prepend_loop {A B : Type} (body : A -> option B) (values : list A)
    : list B :=
  fold_left (fun acc je =>
               match body je with
               | Some x => x :: acc
               | None => acc
               end) values [].

Definition steam_api_friends_cb : SteamParseFunc := fun priv json w =>
  let error :=
    set_api_error priv STEAM_API_ERROR_FRIENDS "Empty friends list" in
  match steam_util_json_val json "friends" json_array_t with
  | Some (json_array values) =>
      let fl := prepend_loop steam_api_friends_entry values in
      let priv := Priv.set_result priv (RStrings fl) g_slist_free in
      match fl with
      | _ :: _ => (true, priv, w)
      | [] =>
          (true,
           set_api_error priv STEAM_API_ERROR_FRIENDS "Empty friends list", w)
      end
  | _ => (true, error, w)
  end.

Definition steam_api_logon_cb : SteamParseFunc := fun priv json w =>
  let '(ok, str) := steam_util_json_scmp json "error" (Some "OK") in
  if negb ok then
    (true, set_api_error priv STEAM_API_ERROR_LOGON (fmt_s str), w)
  else
    let w := with_api w
      (Api.set_lmid (api w) (steam_util_json_int_out json "message")) in
    let '(same, str) :=
      steam_util_json_scmp json "steamid" (Api.steamid (api w)) in
    let w := if negb same then with_api w (Api.set_steamid (api w) str)
             else w in
    let '(same, str) :=
      steam_util_json_scmp json "umqid" (Api.umqid (api w)) in
    let w := if negb same then with_api w (Api.set_umqid (api w) str)
             else w in
    (true, priv, w).

Definition steam_api_relogon_cb : SteamParseFunc := fun priv json w =>
  let w := steam_http_queue_pause w false in
  let '(ok, str) := steam_util_json_scmp json "error" (Some "OK") in
  if ok then (true, priv, w)
  else (true, set_api_error priv STEAM_API_ERROR_RELOGON (fmt_s str), w).

Definition steam_api_logoff_cb : SteamParseFunc := fun priv json w =>
  let '(ok, str) := steam_util_json_scmp json "error" (Some "OK") in
  if ok then (true, priv, w)
  else (true, set_api_error priv STEAM_API_ERROR_LOGOFF (fmt_s str), w).

Definition steam_api_message_cb : SteamParseFunc := fun priv json w =>
  let '(ok, str) := steam_util_json_scmp json "error" (Some "OK") in
  if ok then (true, priv, w)
  else if g_ascii_strcasecmp str (Some "Not Logged On") =? 0 then
    let w := steam_api_relogon w in
    let w := steam_http_req_resend w (Priv.req priv) in
    (false, priv, w)
  else (true, set_api_error priv STEAM_API_ERROR_MESSAGE (fmt_s str), w).

(** The [persona_state] step shared by the STATE case (which falls
    through) and the RELATIONSHIP case. *)
Definition poll_persona_state (je : json_value) (sm : Msg.t) : option Msg.t :=
  match steam_util_json_int je "persona_state" with
  | None => None
  | Some in_ => Some (Msg.set_state sm (to_SteamState in_))
  end.

(** One round of the poll loop: [Some sm] is prepended, [None] is
    [continue]. *)
Definition steam_api_poll_entry (steamid : option string) (je : json_value)
    : option Msg.t :=
  let sm := Msg.zero in
  let '(own, str) := steam_util_json_scmp je "steamid_from" steamid in
  if own then None
  else
    let sm := Msg.set_steamid sm str in
    match steam_util_json_str je "type" with
    | None => None
    | Some str =>
        let sm := Msg.set_type sm (steam_message_type_from_str (Some str)) in
        match Msg.type sm with
        | STEAM_MESSAGE_TYPE_SAYTEXT
        | STEAM_MESSAGE_TYPE_EMOTE =>
            match steam_util_json_str je "text" with
            | None => None
            | Some text => Some (Msg.set_text sm (Some text))
            end
        | STEAM_MESSAGE_TYPE_STATE =>
            match steam_util_json_str je "persona_name" with
            | None => None
            | Some nick => poll_persona_state je (Msg.set_nick sm (Some nick))
            end
        | STEAM_MESSAGE_TYPE_RELATIONSHIP => poll_persona_state je sm
        | STEAM_MESSAGE_TYPE_TYPING
        | STEAM_MESSAGE_TYPE_LEFT_CONV => Some sm
        | STEAM_MESSAGE_TYPE_LAST => None
        end
    end.

Definition steam_api_poll_cb : SteamParseFunc := fun priv json w =>
  let w :=
    match steam_util_json_int json "messagelast" with
    | Some in_ => with_api w (Api.set_lmid (api w) in_)
    | None => w
    end in
  let str := steam_util_json_str json "error" in
  if (match str with Some _ => true | None => false end)
     && negb (g_ascii_strcasecmp str (Some "Timeout") =? 0)
     && negb (g_ascii_strcasecmp str (Some "OK") =? 0)
  then
    if g_ascii_strcasecmp str (Some "Not Logged On") =? 0 then
      let w := steam_api_relogon w in
      let w := steam_http_req_resend w (Priv.req priv) in
      (false, priv, w)
    else (true, set_api_error priv STEAM_API_ERROR_POLL (fmt_s str), w)
  else
    match steam_util_json_val json "messages" json_array_t with
    | Some (json_array values) =>
        let mu :=
          prepend_loop (steam_api_poll_entry (Api.steamid (api w))) values in
        (true, Priv.set_result priv (RMessages (rev mu)) steam_slist_free_full,
         w)
    | _ => (true, priv, w)
    end.

Definition steam_api_summaries_entry (je : json_value) : option Summary.t :=
  match steam_util_json_str je "steamid" with
  | None => None
  | Some steamid =>
      Some (Summary.mk (Some steamid)
              (steam_util_json_str je "gameextrainfo")
              (steam_util_json_str je "gameserverip")
              (steam_util_json_str je "personaname")
              (steam_util_json_str je "profileurl")
              (steam_util_json_str je "realname")
              (to_SteamState (steam_util_json_int_out je "personastate")))
  end.

Definition steam_api_summaries_cb : SteamParseFunc := fun priv json w =>
  let error :=
    set_api_error priv STEAM_API_ERROR_SUMMARIES "No friends returned" in
  match steam_util_json_val json "players" json_array_t with
  | Some (json_array values) =>
      let mu := prepend_loop steam_api_summaries_entry values in
      let priv := Priv.set_result priv (RSummaries mu) steam_slist_free_full in
      match mu with
      | _ :: _ => (true, priv, w)
      | [] =>
          (true,
           set_api_error priv STEAM_API_ERROR_SUMMARIES "No friends returned",
           w)
      end
  | _ => (true, error, w)
  end.

(** ** Response dispatcher *)

(** The table [saf]. *)
Definition saf (type : SteamApiType) : SteamParseFunc :=
  match type with
  | STEAM_API_TYPE_AUTH => steam_api_auth_cb
  | STEAM_API_TYPE_FRIENDS => steam_api_friends_cb
  | STEAM_API_TYPE_LOGON => steam_api_logon_cb
  | STEAM_API_TYPE_RELOGON => steam_api_relogon_cb
  | STEAM_API_TYPE_LOGOFF => steam_api_logoff_cb
  | STEAM_API_TYPE_MESSAGE => steam_api_message_cb
  | STEAM_API_TYPE_POLL => steam_api_poll_cb
  | STEAM_API_TYPE_SUMMARIES => steam_api_summaries_cb
  end.

(** The continuation call at the end of [steam_api_cb]: the shape of the
    call follows the operation. *)
Definition call_func (priv : Priv.t) (f : FuncPtr) (w : World) : World :=
  match Priv.type priv with
  | STEAM_API_TYPE_AUTH
  | STEAM_API_TYPE_LOGON
  | STEAM_API_TYPE_RELOGON
  | STEAM_API_TYPE_LOGOFF
  | STEAM_API_TYPE_MESSAGE =>
      emit w (CallApiFunc f (api w) (Priv.err priv) (Priv.data priv))
  | STEAM_API_TYPE_FRIENDS
  | STEAM_API_TYPE_POLL
  | STEAM_API_TYPE_SUMMARIES =>
      emit w (CallListFunc f (api w) (Priv.rdata priv) (Priv.err priv)
                (Priv.data priv))
  end.

Section Dispatcher.

(** The JSON tokenizer: a document, or NULL with a diagnostic. *)
Variable json_parse_ex : option string -> json_value + string.

(** The range test on [priv->type] that opens the function passes for
    every [SteamApiType]. *)
Definition steam_api_cb (req : Req.t) (priv : Priv.t) (w : World)
    : Req.t * Priv.t * World :=
  let '(req, priv, json) :=
    match Req.err req with
    | Some e =>
        (Req.set_err req None,
         Priv.set_err priv (g_propagate_error (Priv.err priv) e), None)
    | None =>
        match json_parse_ex (Req.body req) with
        | inl json => (req, priv, Some json)
        | inr err =>
            (req, set_api_error priv STEAM_API_ERROR_PARSER ("Parser: " ++ err),
             None)
        end
    end in
  let '(callf, priv, w) :=
    match Priv.err priv, json with
    | None, Some json =>
        let priv := Priv.set_req priv (Some req) in
        let '(callf, priv, w) := saf (Priv.type priv) priv json w in
        (callf, Priv.set_req priv None, w)
    | _, _ => (true, priv, w)
    end in
  let priv :=
    Priv.set_err priv
      (g_prefix_error (Priv.err priv)
         (steam_api_type_str (Priv.type priv) ++ ": ")) in
  let w :=
    if callf then
      match Priv.func priv with
      | Some f => call_func priv f w
      | None => w
      end
    else w in
  (req, priv, w).

End Dispatcher.

(** ** Request builders *)

(** [sm] is [None] for a NULL message, which the second
    [g_return_if_fail] turns away. *)
Definition steam_api_message (w : World) (sm : option Msg.t)
    (func : option FuncPtr) (data : gpointer) : World :=
  match sm with
  | None => w
  | Some sm =>
      let priv := steam_api_priv_new STEAM_API_TYPE_MESSAGE func data in
      let req := steam_http_req_new STEAM_API_HOST 443 STEAM_API_PATH_MESSAGE in
      let req := steam_http_req_params_set req
        [("format", PMacro STEAM_API_FORMAT);
         ("access_token", PStr (Api.token (api w)));
         ("umqid", PStr (Api.umqid (api w)));
         ("steamid_dst", PStr (Msg.steamid sm));
         ("type", PStr (steam_message_type_str (Msg.type sm)))] in
      let switch :=
        match Msg.type sm with
        | STEAM_MESSAGE_TYPE_SAYTEXT
        | STEAM_MESSAGE_TYPE_EMOTE =>
            Some (steam_http_req_params_set req [("text", PStr (Msg.text sm))])
        | STEAM_MESSAGE_TYPE_TYPING => Some req
        | _ => None
        end in
      match switch with
      | None => steam_http_req_free w req
      | Some req =>
          let req := Req.set_flags req
            [STEAM_HTTP_REQ_FLAG_QUEUED; STEAM_HTTP_REQ_FLAG_POST;
             STEAM_HTTP_REQ_FLAG_SSL] in
          steam_http_req_send w req priv
      end
  end.

(** How a run of the chunking loop ends: it returns, or it reads
    [s->data] through a NULL [s]; [OutOfFuel] is an artefact of the
    fuel and never the result of [steam_api_summaries]. *)
Inductive Run :=
| Returned (w : World)
| NullDeref (w : World)
| OutOfFuel.

(** The string built by the two [g_stpcpy] loops: [s->data], then a comma
    and the data of every node from [s->next] up to [e]. *)
Definition join_chunk (first : string) (others : list string) : string :=
  fold_left (fun p d => p ++ "," ++ d) others first.

(** The body of [while (TRUE)]. The counting loop leaves [l], hence [e],
    at the node 100 places after [s], or NULL when the list is shorter. *)
Fixpoint summaries_loop (fuel : nat) (s : list string)
    (func : option FuncPtr) (data : gpointer) (w : World) : Run :=
  match fuel with
  | O => OutOfFuel
  | S fuel =>
      match s with
      | [] => NullDeref w
      | first :: next =>
          let e := skipn 100 s in
          let str := join_chunk first (firstn 99 next) in
          let priv := steam_api_priv_new STEAM_API_TYPE_SUMMARIES func data in
          let req :=
            steam_http_req_new STEAM_API_HOST 443 STEAM_API_PATH_SUMMARIES in
          let req := steam_http_req_params_set req
            [("format", PMacro STEAM_API_FORMAT);
             ("access_token", PStr (Api.token (api w)));
             ("steamids", PStr (Some str))] in
          let req := Req.set_flags req [STEAM_HTTP_REQ_FLAG_SSL] in
          let w := steam_http_req_send w req priv in
          match e with
          | _ :: e_next => summaries_loop fuel e_next func data w
          | [] => Returned w
          end
      end
  end.

Definition steam_api_summaries (w : World) (friends : list string)
    (func : option FuncPtr) (data : gpointer) : Run :=
  match friends with
  | [] =>
      Returned
        match func with
        | Some f => emit w (CallListFunc f (api w) RNull None data)
        | None => w
        end
  | _ :: _ => summaries_loop (List.length friends) friends func data w
  end.

(** The requests handed to the transport, in the order of the calls. *)
Definition sent_requests (w : World) : list Req.t :=
  flat_map (fun e => match e with
                     | HttpReqSend r _ => [r]
                     | _ => []
                     end) (trace w).

(** The [steamids] parameter of a request. *)
Definition steamids_param (r : Req.t) : option string :=
  match find (fun kv => String.eqb (fst kv) "steamids") (Req.params r) with
  | Some (_, PStr v) => v
  | _ => None
  end.

(** * Vocabulary of the statements *)

(** What a loop body lets through, in document order. *)
Definition kept {A B : Type} (body : A -> option B) (values : list A)
    : list B :=
  flat_map (fun je => match body je with
                      | Some x => [x]
                      | None => []
                      end) values.

(** A name matches when the lookup loop's comparison answers 0 for one of
    the enumerated states. *)
Definition matches_state_name (name : string) : bool :=
  existsb (fun s => g_ascii_strcasecmp (Some name) (steam_state_str s) =? 0)
          states_below_LAST.


(** Folding to lower case, and strings without an inner NUL. *)
Fixpoint ascii_fold (s : string) : string :=
  match s with
  | EmptyString => EmptyString
  | String c r => String (g_ascii_tolower c) (ascii_fold r)
  end.

Fixpoint no_nul (s : string) : Prop :=
  match s with
  | EmptyString => True
  | String c r => c <> zero /\ no_nul r
  end.







(** The ids the Summaries requests of a world carry, request by request:
    each [steamids] parameter, split at its commas. *)
Fixpoint split_commas (cur : string) (s : string) : list string :=
  match s with
  | EmptyString => [cur]
  | String c r =>
      if Ascii.eqb c ","%char then cur :: split_commas "" r
      else split_commas (cur ++ String c "") r
  end.

Definition chunks_sent (w : World) : list (list string) :=
  map (fun r => match steamids_param r with
                | Some str => split_commas "" str
                | None => []
                end) (sent_requests w).

(** Sample inputs. *)
Module Sample.

Definition session : Api.t := Api.mk (Some "token") (Some "4711") (Some "me") 0.
Definition world : World := mkWorld session false [].

Definition obj_error (s : string) : json_value :=
  json_object [("error", json_string s)].

Definition message_priv : Priv.t :=
  steam_api_priv_new STEAM_API_TYPE_MESSAGE (Some 1%nat) 99.
Definition message_req : Req.t :=
  Req.set_flags
    (steam_http_req_new STEAM_API_HOST 443 STEAM_API_PATH_MESSAGE)
    [STEAM_HTTP_REQ_FLAG_QUEUED; STEAM_HTTP_REQ_FLAG_POST;
     STEAM_HTTP_REQ_FLAG_SSL].
Definition parse_not_logged_on (body : option string) : json_value + string :=
  inl (obj_error "Not Logged On").

Definition relogon_priv : Priv.t :=
  steam_api_priv_new STEAM_API_TYPE_RELOGON None NULL.

Definition poll_priv : Priv.t :=
  steam_api_priv_new STEAM_API_TYPE_POLL (Some 2%nat) 99.
Definition logon_priv : Priv.t :=
  steam_api_priv_new STEAM_API_TYPE_LOGON (Some 3%nat) 99.
Definition entry (members : list (string * string)) : json_value :=
  json_object (map (fun kv => (fst kv, json_string (snd kv))) members).
Definition say_from_1 : json_value :=
  entry [("steamid_from", "1"); ("type", "saytext"); ("text", "hi")].
Definition say_from_me : json_value :=
  entry [("steamid_from", "me"); ("type", "saytext"); ("text", "echo")].
Definition auth_priv : Priv.t :=
  steam_api_priv_new STEAM_API_TYPE_AUTH (Some 5%nat) 99.
Definition auth_guard_doc : json_value :=
  entry [("x_errorcode", "steamguard_code_required");
         ("error_description", "need code")].
Definition parse_auth_guard (body : option string) : json_value + string :=
  inl auth_guard_doc.
Definition auth_req : Req.t :=
  steam_http_req_new STEAM_API_HOST 443 STEAM_API_PATH_AUTH.
(** The account ids "0", "1", ..., one per list node. *)
Definition ids (n : nat) : list string :=
  map (fun i => NilZero.string_of_uint (Nat.to_uint i)) (seq 0 n).

End Sample.

(** * The remaining request builders *)

Definition steam_api_friends (w : World) (func : option FuncPtr)
    (data : gpointer) : World :=
  let priv := steam_api_priv_new STEAM_API_TYPE_FRIENDS func data in
  let req := steam_http_req_new STEAM_API_HOST 443 STEAM_API_PATH_FRIENDS in
  let req := steam_http_req_params_set req
    [("format", PMacro STEAM_API_FORMAT);
     ("access_token", PStr (Api.token (api w)));
     ("steamid", PStr (Api.steamid (api w)));
     ("relationship", PStr (Some "friend"))] in
  let req := Req.set_flags req [STEAM_HTTP_REQ_FLAG_SSL] in
  steam_http_req_send w req priv.

Definition steam_api_logon (w : World) (func : option FuncPtr)
    (data : gpointer) : World :=
  let priv := steam_api_priv_new STEAM_API_TYPE_LOGON func data in
  let req := steam_http_req_new STEAM_API_HOST 443 STEAM_API_PATH_LOGON in
  let req := steam_http_req_params_set req
    [("format", PMacro STEAM_API_FORMAT);
     ("access_token", PStr (Api.token (api w)));
     ("umqid", PStr (Api.umqid (api w)))] in
  let req := Req.set_flags req
    [STEAM_HTTP_REQ_FLAG_POST; STEAM_HTTP_REQ_FLAG_SSL] in
  steam_http_req_send w req priv.

Definition steam_api_logoff (w : World) (func : option FuncPtr)
    (data : gpointer) : World :=
  let priv := steam_api_priv_new STEAM_API_TYPE_LOGOFF func data in
  let req := steam_http_req_new STEAM_API_HOST 443 STEAM_API_PATH_LOGOFF in
  let req := steam_http_req_params_set req
    [("format", PMacro STEAM_API_FORMAT);
     ("access_token", PStr (Api.token (api w)));
     ("umqid", PStr (Api.umqid (api w)))] in
  let req := Req.set_flags req
    [STEAM_HTTP_REQ_FLAG_POST; STEAM_HTTP_REQ_FLAG_SSL] in
  steam_http_req_send w req priv.

(** [steamid] is [None] for a NULL id, which the second
    [g_return_if_fail] turns away. *)
Definition steam_api_summary (w : World) (steamid : option string)
    (func : option FuncPtr) (data : gpointer) : World :=
  match steamid with
  | None => w
  | Some _ =>
      let priv := steam_api_priv_new STEAM_API_TYPE_SUMMARIES func data in
      let req :=
        steam_http_req_new STEAM_API_HOST 443 STEAM_API_PATH_SUMMARIES in
      let req := steam_http_req_params_set req
        [("format", PMacro STEAM_API_FORMAT);
         ("access_token", PStr (Api.token (api w)));
         ("steamids", PStr steamid)] in
      let req := Req.set_flags req [STEAM_HTTP_REQ_FLAG_SSL] in
      steam_http_req_send w req priv
  end.

(** * Further vocabulary *)

(** Continuation calls among a run of events. *)
Definition is_call (e : Event) : bool :=
  match e with
  | CallApiFunc _ _ _ _ | CallListFunc _ _ _ _ _ => true
  | _ => false
  end.

Definition calls_in (events : list Event) : list Event :=
  filter is_call events.

(** The error a continuation call hands over. *)
Definition call_error (e : Event) : option GError :=
  match e with
  | CallApiFunc _ _ err _ | CallListFunc _ _ _ err _ => err
  | _ => None
  end.

(** The continuation and user data a call goes to. *)
Definition call_target (e : Event) : option (FuncPtr * gpointer) :=
  match e with
  | CallApiFunc f _ _ d | CallListFunc f _ _ _ d => Some (f, d)
  | _ => None
  end.

(** The end of [steam_api_cb]: prefix the error, then call or not. *)
Definition finish (callf : bool) (p1 : Priv.t) (w1 : World)
    : Priv.t * World :=
  let p' :=
    Priv.set_err p1
      (g_prefix_error (Priv.err p1)
         (steam_api_type_str (Priv.type p1) ++ ": ")) in
  (p', if callf then
         match Priv.func p1 with
         | Some f => call_func p' f w1
         | None => w1
         end
       else w1).

(** The three events of a silent retry started for context [priv]. *)
Definition is_retry (priv : Priv.t) (events : list Event) : Prop :=
  exists relogon_req relogon_priv,
    Priv.type relogon_priv = STEAM_API_TYPE_RELOGON /\
    Priv.func relogon_priv = None /\
    Req.path relogon_req = STEAM_API_PATH_LOGON /\
    events = [HttpQueuePause true;
              HttpReqSend relogon_req relogon_priv;
              HttpReqResend (Priv.req priv)].

(** Whether a request goes through the ordered queue. *)
Definition is_queued (r : Req.t) : bool :=
  existsb (fun f => match f with
                    | STEAM_HTTP_REQ_FLAG_QUEUED => true
                    | _ => false
                    end) (Req.flags r).

(** The operations whose parse callback can ask for a silent retry. *)
Definition may_retry (type : SteamApiType) : bool :=
  match type with
  | STEAM_API_TYPE_MESSAGE | STEAM_API_TYPE_POLL => true
  | _ => false
  end.

(** What the poll callback takes for an error string that fails the
    poll: one that is neither "Timeout" nor "OK". *)
Definition poll_error_string (s : string) : bool :=
  negb (g_ascii_strcasecmp (Some s) (Some "Timeout") =? 0)
  && negb (g_ascii_strcasecmp (Some s) (Some "OK") =? 0).

(** The world a Poll response leaves when it only moves the last
    message id. *)
Definition poll_world (w : World) (json : json_value) : World :=
  match steam_util_json_int json "messagelast" with
  | Some m => with_api w (Api.set_lmid (api w) m)
  | None => w
  end.

(** The world a run of the chunking loop ends in. *)
Definition run_world (r : Run) : option World :=
  match r with
  | Returned w | NullDeref w => Some w
  | OutOfFuel => None
  end.

(** The Summaries request for one group of ids: the ids joined by commas
    in [steamids], sent with the session's token, not queued. *)
Definition summaries_request (a : Api.t) (chunk : list string) : Req.t :=
  Req.mk STEAM_API_HOST 443 STEAM_API_PATH_SUMMARIES
    [("format", PMacro STEAM_API_FORMAT);
     ("access_token", PStr (Api.token a));
     ("steamids", PStr (Some (String.concat "," chunk)))]
    [STEAM_HTTP_REQ_FLAG_SSL] None None.




(** Further sample inputs. *)
Module Scenario.

Definition poll_failed_doc : json_value :=
  json_object [("messagelast", json_integer 42);
               ("error", json_string "Bad Request");
               ("messages", json_array [Sample.say_from_1])].
Definition poll_timeout_doc : json_value :=
  json_object [("messagelast", json_integer 42);
               ("error", json_string "timeout");
               ("messages",
                json_array [Sample.say_from_me; Sample.say_from_1])].
Definition poll_expired_doc : json_value :=
  json_object [("messagelast", json_integer 42);
               ("error", json_string "not logged on")].

Definition transport_error : GError :=
  mkGError "steam-http-error-quark" (ForeignCode 1) "Connection timed out".
Definition failed_req : Req.t :=
  Req.set_err Sample.message_req (Some transport_error).
Definition parse_garbage (body : option string) : json_value + string :=
  inr "Unexpected < at 1:1".
Definition logoff_priv : Priv.t :=
  steam_api_priv_new STEAM_API_TYPE_LOGOFF (Some 6%nat) 99.
Definition logoff_req : Req.t :=
  steam_http_req_new STEAM_API_HOST 443 STEAM_API_PATH_LOGOFF.
Definition poll_req : Req.t :=
  steam_http_req_new STEAM_API_HOST 443 STEAM_API_PATH_POLL.
Definition summaries_priv : Priv.t :=
  steam_api_priv_new STEAM_API_TYPE_SUMMARIES (Some 7%nat) 99.
Definition logon_doc : json_value :=
  json_object [("error", json_string "OK");
               ("message", json_integer 17);
               ("steamid", json_string "76561197960265728")].
Definition players_doc : json_value :=
  json_object
    [("players",
      json_array
        [json_object [("steamid", json_string "10");
                      ("personaname", json_string "ten");
                      ("personastate", json_integer 1)];
         json_object [("personaname", json_string "nobody")];
         json_object [("steamid", json_string "12");
                      ("personastate", json_integer 4294967297)]])].

End Scenario.

(** * Properties *)

(** ** Facts about the helpers *)

Lemma scmp_str (json : json_value) (name : string) (m : option string) :
  snd (steam_util_json_scmp json name m) = steam_util_json_str json name.
Proof.
  unfold steam_util_json_scmp.
  destruct (steam_util_json_str json name); reflexivity.
Qed.

Lemma scmp_true_iff (json : json_value) (name : string) (m : option string) :
  fst (steam_util_json_scmp json name m) = true <->
  exists s, m = Some s /\ steam_util_json_str json name = Some s.
Proof.
  unfold steam_util_json_scmp.
  destruct (steam_util_json_str json name) as [s|]; simpl.
  - destruct m as [m|]; split.
    + intros H. apply String.eqb_eq in H. subst. eauto.
    + intros [s' [Hm Hs]]. injection Hm as ->. injection Hs as ->.
      apply String.eqb_refl.
    + discriminate.
    + intros [s' [Hm _]]. discriminate.
  - split; [discriminate | intros [s [_ H]]; discriminate].
Qed.

Lemma scmp_literal (json : json_value) (name lit s : string) :
  steam_util_json_str json name = Some s ->
  steam_util_json_scmp json name (Some lit) = (String.eqb lit s, Some s).
Proof.
  intros H. unfold steam_util_json_scmp. rewrite H. reflexivity.
Qed.

Lemma scmp_absent (json : json_value) (name : string) (m : option string) :
  steam_util_json_str json name = None ->
  steam_util_json_scmp json name m = (false, None).
Proof.
  intros H. unfold steam_util_json_scmp. rewrite H. reflexivity.
Qed.

(** ** The prepend loop keeps, in reverse, what its body lets through *)

Lemma prepend_loop_acc {A B : Type} (body : A -> option B) (values : list A) :
  forall acc,
    fold_left (fun acc je => match body je with
                             | Some x => x :: acc
                             | None => acc
                             end) values acc
    = (rev (kept body values) ++ acc)%list.
Proof.
  unfold kept.
  induction values as [|je values IH]; intros acc; simpl.
  - reflexivity.
  - rewrite IH. destruct (body je) as [x|]; simpl.
    + rewrite <- app_assoc. reflexivity.
    + reflexivity.
Qed.

Lemma prepend_loop_kept {A B : Type} (body : A -> option B) (values : list A) :
  prepend_loop body values = rev (kept body values).
Proof.
  unfold prepend_loop. rewrite prepend_loop_acc. apply app_nil_r.
Qed.

Lemma In_kept {A B : Type} (body : A -> option B) (values : list A) (x : B) :
  In x (kept body values) <-> exists je, In je values /\ body je = Some x.
Proof.
  unfold kept. rewrite in_flat_map. split.
  - intros [je [Hin Hx]]. exists je. split; [assumption|].
    destruct (body je) as [y|]; simpl in Hx; [|contradiction].
    destruct Hx as [-> | []]. reflexivity.
  - intros [je [Hin Hx]]. exists je. split; [assumption|].
    rewrite Hx. left. reflexivity.
Qed.


(** ** Presence-state names *)

Lemma first_named_no_match {E : Type} (str_of : E -> option string)
    (name : option string) (enumerators : list E) (dflt : E) :
  existsb (fun i => g_ascii_strcasecmp name (str_of i) =? 0) enumerators = false ->
  first_named str_of name enumerators dflt = dflt.
Proof.
  induction enumerators as [|i rest IH]; simpl; intros H.
  - reflexivity.
  - apply orb_false_iff in H. destruct H as [Hi Hrest].
    rewrite Hi. apply IH, Hrest.
Qed.

(** C9: looking up the name of an enumerated presence state gives the
    state back, and a string that matches no state name, like the NULL
    string, is looked up as Offline. *)
Theorem steam_state_from_str_roundtrip :
  (forall s : SteamState, steam_state_from_str (steam_state_str s) = s) /\
  steam_state_from_str None = STEAM_STATE_OFFLINE /\
  (forall name : string,
      matches_state_name name = false ->
      steam_state_from_str (Some name) = STEAM_STATE_OFFLINE).
Proof.
  split; [|split].
  - intros []; reflexivity.
  - reflexivity.
  - intros name H. unfold steam_state_from_str.
    apply first_named_no_match. exact H.
Qed.

Lemma steam_state_from_str_roundtrip_witness :
  matches_state_name "Invisible" = false /\
  steam_state_from_str (Some "Invisible") = STEAM_STATE_OFFLINE.
Proof.
  split.
  - reflexivity.
  - apply (proj2 (proj2 steam_state_from_str_roundtrip)). reflexivity.
Defined.

(** ** What the comparison calls equal *)

Lemma byte_of_inj (a b : ascii) : byte_of a = byte_of b -> a = b.
Proof.
  unfold byte_of. intros H. apply N2Z.inj in H.
  rewrite <- (ascii_N_embedding a), <- (ascii_N_embedding b), H.
  reflexivity.
Qed.

Lemma byte_of_zero (a : ascii) : byte_of a = 0 -> a = zero.
Proof. intros H. apply byte_of_inj. exact H. Qed.

(** On C strings the comparison answers 0 exactly when the two strings
    agree after folding 'A'..'Z' to lower case. *)
Lemma ascii_strcasecmp_zero_iff (a : string) :
  forall b, no_nul a -> no_nul b ->
    (ascii_strcasecmp a b = 0 <-> ascii_fold a = ascii_fold b).
Proof.
  induction a as [|x a IH]; intros [|y b] Ha Hb; simpl in *.
  - tauto.
  - split; [|discriminate]. intros H.
    destruct Hb as [Hy _]. exfalso. apply Hy, byte_of_zero. lia.
  - split; [|discriminate]. intros H.
    destruct Ha as [Hx _]. exfalso. apply Hx, byte_of_zero. lia.
  - destruct Ha as [_ Ha]. destruct Hb as [_ Hb].
    destruct (Z.eqb_spec (byte_of (g_ascii_tolower x))
                         (byte_of (g_ascii_tolower y))) as [E|E].
    + apply byte_of_inj in E. rewrite E, (IH b Ha Hb).
      split; [intros ->; reflexivity | intros H; injection H; auto].
    + split; [lia|]. intros H. injection H as H _.
      exfalso. apply E. rewrite H. reflexivity.
Qed.

(** A string that folds to "not logged on" is what the callbacks take for
    the session-expiry sentinel. *)
Lemma not_logged_on_any_case (s : string) :
  no_nul s ->
  ascii_fold s = "not logged on" ->
  g_ascii_strcasecmp (Some s) (Some "Not Logged On") = 0.
Proof.
  intros Hnul Hfold. simpl.
  apply ascii_strcasecmp_zero_iff.
  - exact Hnul.
  - simpl. repeat split; discriminate.
  - rewrite Hfold. reflexivity.
Qed.

(** ** Session expiry on a message response *)

Lemma not_logged_on_is_not_OK (s : string) :
  g_ascii_strcasecmp (Some s) (Some "Not Logged On") = 0 ->
  String.eqb "OK" s = false.
Proof.
  intros H. destruct (String.eqb_spec "OK" s) as [<-|]; [|reflexivity].
  vm_compute in H. discriminate.
Qed.

Lemma set_err_same (p : Priv.t) : Priv.set_err p (Priv.err p) = p.
Proof. destruct p; reflexivity. Qed.

(** C1: a SendMessage response whose [error] member compares equal to
    "Not Logged On" makes the parse callback pause the queue, send a
    Relogon request that has no continuation, resend the triggering
    request and answer deliver-now = false; the dispatcher then invokes
    no continuation and leaves the context without an error. *)
Theorem message_not_logged_on_silent_retry :
  forall (json_parse_ex : option string -> json_value + string)
         (req : Req.t) (priv : Priv.t) (w : World) (json : json_value)
         (s : string),
    Priv.type priv = STEAM_API_TYPE_MESSAGE ->
    Priv.err priv = None ->
    Req.err req = None ->
    json_parse_ex (Req.body req) = inl json ->
    steam_util_json_str json "error" = Some s ->
    g_ascii_strcasecmp (Some s) (Some "Not Logged On") = 0 ->
    exists relogon_req relogon_priv,
      let w' :=
        mkWorld (api w) true
          (trace w ++ [HttpQueuePause true;
                       HttpReqSend relogon_req relogon_priv;
                       HttpReqResend (Some req)]) in
      Priv.type relogon_priv = STEAM_API_TYPE_RELOGON /\
      Priv.func relogon_priv = None /\
      Req.path relogon_req = STEAM_API_PATH_LOGON /\
      steam_api_message_cb (Priv.set_req priv (Some req)) json w
        = (false, Priv.set_req priv (Some req), w') /\
      steam_api_cb json_parse_ex req priv w
        = (req, Priv.set_req priv None, w').
Proof.
  intros parse req priv w json s Hty Herr Hreq Hparse Hstr Hcmp.
  assert (Hcb : forall p,
    steam_api_message_cb p json w
    = (false, p, steam_http_req_resend (steam_api_relogon w) (Priv.req p))).
  { intros p. unfold steam_api_message_cb.
    rewrite (scmp_literal _ _ _ _ Hstr), (not_logged_on_is_not_OK _ Hcmp).
    rewrite Hcmp. reflexivity. }
  eexists. eexists. cbv zeta.
  split; [|split; [|split; [|split]]].
  4: { rewrite Hcb. unfold steam_http_req_resend, steam_api_relogon,
         steam_http_req_send, steam_http_queue_pause, emit. simpl.
       rewrite <- !app_assoc. simpl. reflexivity. }
  1-3: reflexivity.
  unfold steam_api_cb. rewrite Hreq, Hparse, Herr.
  destruct priv as [ty e f d rd rf rq]. simpl in *. subst ty e.
  simpl. rewrite Hcb. simpl.
  unfold steam_http_req_resend, steam_api_relogon,
    steam_http_req_send, steam_http_queue_pause, emit. simpl.
  rewrite <- !app_assoc. reflexivity.
Qed.

(** ** Relogon responses *)

(** C2: whatever the Relogon response says, the callback first unpauses
    the queue; a response whose [error] is "OK" leaves the context as it
    was, and any other value is reported as a Relogon error carrying the
    server's string. *)
Theorem relogon_cb_unpauses_then_reports :
  forall (priv : Priv.t) (json : json_value) (w : World),
    Priv.err priv = None ->
    exists priv',
      steam_api_relogon_cb priv json w
        = (true, priv',
           mkWorld (api w) false (trace w ++ [HttpQueuePause false])) /\
      (steam_util_json_str json "error" = Some "OK" -> priv' = priv) /\
      (forall s, steam_util_json_str json "error" = Some s -> s <> "OK" ->
         Priv.err priv'
         = Some (mkGError STEAM_API_ERROR (ApiCode STEAM_API_ERROR_RELOGON) s)) /\
      (steam_util_json_str json "error" = None ->
         Priv.err priv'
         = Some (mkGError STEAM_API_ERROR (ApiCode STEAM_API_ERROR_RELOGON)
                   "(null)")).
Proof.
  intros priv json w Herr. unfold steam_api_relogon_cb.
  destruct (steam_util_json_str json "error") as [s|] eqn:Hstr.
  - rewrite (scmp_literal _ _ _ _ Hstr).
    destruct (String.eqb_spec "OK" s) as [<-|Hne].
    + exists priv. repeat split; intros; congruence.
    + eexists. split; [reflexivity|]. split; [|split].
      * intros H. congruence.
      * intros s' H Hs'. injection H as <-.
        unfold set_api_error. rewrite Herr. reflexivity.
      * discriminate.
  - rewrite (scmp_absent _ _ _ Hstr).
    eexists. split; [reflexivity|]. split; [|split].
    + discriminate.
    + discriminate.
    + intros _. unfold set_api_error. rewrite Herr. reflexivity.
Qed.

Lemma message_not_logged_on_silent_retry_witness :
  exists relogon_req relogon_priv,
    steam_api_cb Sample.parse_not_logged_on Sample.message_req
      Sample.message_priv Sample.world
    = (Sample.message_req, Priv.set_req Sample.message_priv None,
       mkWorld Sample.session true
         [HttpQueuePause true;
          HttpReqSend relogon_req relogon_priv;
          HttpReqResend (Some Sample.message_req)]).
Proof.
  destruct (message_not_logged_on_silent_retry
              Sample.parse_not_logged_on Sample.message_req
              Sample.message_priv Sample.world
              (Sample.obj_error "Not Logged On") "Not Logged On"
              eq_refl eq_refl eq_refl eq_refl eq_refl eq_refl)
    as (rr & rp & _ & _ & _ & _ & H).
  exists rr, rp. exact H.
Defined.

Lemma relogon_cb_unpauses_then_reports_witness :
  exists priv',
    steam_api_relogon_cb Sample.relogon_priv (Sample.obj_error "Expired")
      (mkWorld Sample.session true [])
    = (true, priv', mkWorld Sample.session false [HttpQueuePause false]) /\
    Priv.err priv'
    = Some (mkGError STEAM_API_ERROR (ApiCode STEAM_API_ERROR_RELOGON)
              "Expired").
Proof.
  destruct (relogon_cb_unpauses_then_reports Sample.relogon_priv
              (Sample.obj_error "Expired") (mkWorld Sample.session true [])
              eq_refl)
    as (priv' & Hrun & _ & Hfail & _).
  exists priv'. split.
  - exact Hrun.
  - apply Hfail; [reflexivity | discriminate].
Defined.

(** ** The last-seen message id *)

Lemma relogon_keeps_api (w : World) : api (steam_api_relogon w) = api w.
Proof. reflexivity. Qed.

(** What the poll callback leaves in [lmid]. *)
Lemma poll_cb_lmid (priv : Priv.t) (json : json_value) (w : World) :
  Api.lmid (api (snd (steam_api_poll_cb priv json w)))
  = match steam_util_json_int json "messagelast" with
    | Some m => m
    | None => Api.lmid (api w)
    end.
Proof.
  unfold steam_api_poll_cb.
  set (w1 := match steam_util_json_int json "messagelast" with
             | Some in_ => with_api w (Api.set_lmid (api w) in_)
             | None => w
             end).
  assert (H1 : Api.lmid (api w1)
               = match steam_util_json_int json "messagelast" with
                 | Some m => m
                 | None => Api.lmid (api w)
                 end).
  { subst w1. destruct (steam_util_json_int json "messagelast"); reflexivity. }
  rewrite <- H1.
  destruct (_ && _ && _).
  - destruct (_ =? 0); reflexivity.
  - destruct (steam_util_json_val json "messages" json_array_t) as [[]|];
      reflexivity.
Qed.








(** C4: a Poll response with an integer [messagelast] leaves that value in
    [lmid], whichever way the callback then returns: with messages, with
    a Poll error, or on the silent-retry path. *)
Theorem poll_cb_stores_messagelast :
  forall (priv : Priv.t) (json : json_value) (w : World) (m : Z),
    steam_util_json_int json "messagelast" = Some m ->
    Api.lmid (api (snd (steam_api_poll_cb priv json w))) = m.
Proof.
  intros priv json w m H. rewrite poll_cb_lmid, H. reflexivity.
Qed.

Lemma poll_cb_stores_messagelast_witness :
  fst (fst (steam_api_poll_cb Sample.poll_priv
              (json_object [("messagelast", json_integer 42);
                            ("error", json_string "Not Logged On")])
              Sample.world)) = false /\
  Api.lmid (api (snd (steam_api_poll_cb Sample.poll_priv
                        (json_object [("messagelast", json_integer 42);
                                      ("error", json_string "Not Logged On")])
                        Sample.world))) = 42.
Proof.
  split.
  - reflexivity.
  - apply (poll_cb_stores_messagelast Sample.poll_priv
             (json_object [("messagelast", json_integer 42);
                           ("error", json_string "Not Logged On")])
             Sample.world 42).
    reflexivity.
Defined.

(** The same on a response that ends in a Poll error. *)
Example poll_failed_still_stores_messagelast :
  let r := steam_api_poll_cb Sample.poll_priv
             (json_object [("messagelast", json_integer 42);
                           ("error", json_string "Bad Request")])
             Sample.world in
  Priv.err (snd (fst r))
  = Some (mkGError STEAM_API_ERROR (ApiCode STEAM_API_ERROR_POLL)
            "Bad Request") /\
  Api.lmid (api (snd r)) = 42.
Proof. split; reflexivity. Qed.

(** ** Poll entries *)





(** ** Friends *)



(** Without a [friends] array the callback reports the same error. *)
Lemma friends_cb_no_array (priv : Priv.t) (json : json_value) (w : World) :
  Priv.err priv = None ->
  (forall values,
      steam_util_json_val json "friends" json_array_t
      <> Some (json_array values)) ->
  steam_api_friends_cb priv json w
  = (true,
     Priv.set_err priv
       (Some (mkGError STEAM_API_ERROR (ApiCode STEAM_API_ERROR_FRIENDS)
                "Empty friends list")), w).
Proof.
  intros Herr Hno. unfold steam_api_friends_cb, set_api_error.
  rewrite Herr.
  destruct (steam_util_json_val json "friends" json_array_t)
    as [[| |values| | | | |]|]; try reflexivity.
  exfalso. apply (Hno values). reflexivity.
Qed.

(** ** Authentication *)



(** The scenario through the dispatcher: the continuation receives the
    guard-code error, its message prefixed with the operation's name. *)
Example auth_guard_code_delivered :
  snd (steam_api_cb Sample.parse_auth_guard Sample.auth_req Sample.auth_priv
         Sample.world)
  = mkWorld Sample.session false
      [CallApiFunc 5%nat Sample.session
         (Some (mkGError STEAM_API_ERROR (ApiCode STEAM_API_ERROR_AUTH_REQ)
                  "Authentication: need code")) 99].
Proof. reflexivity. Qed.

(** ** Sending a message *)

(** C10: for a message kind other than say, emote and typing,
    [steam_api_message] frees the request it has built and returns:
    nothing is sent and no continuation is invoked. *)
Theorem message_unsupported_kind_aborts :
  forall (w : World) (sm : Msg.t) (func : option FuncPtr) (data : gpointer),
    Msg.type sm <> STEAM_MESSAGE_TYPE_SAYTEXT ->
    Msg.type sm <> STEAM_MESSAGE_TYPE_EMOTE ->
    Msg.type sm <> STEAM_MESSAGE_TYPE_TYPING ->
    exists req,
      steam_api_message w (Some sm) func data
      = mkWorld (api w) (queue_paused w) (trace w ++ [HttpReqFree req]).
Proof.
  intros w sm func data Hsay Hemote Htyping.
  unfold steam_api_message.
  destruct (Msg.type sm); try contradiction; eexists; reflexivity.
Qed.

Lemma message_unsupported_kind_aborts_witness :
  exists req,
    steam_api_message Sample.world
      (Some (Msg.mk STEAM_MESSAGE_TYPE_STATE (Some "1") None (Some "nick") 1))
      (Some 1%nat) 99
    = mkWorld Sample.session false [HttpReqFree req].
Proof.
  apply (message_unsupported_kind_aborts Sample.world
           (Msg.mk STEAM_MESSAGE_TYPE_STATE (Some "1") None (Some "nick") 1)
           (Some 1%nat) 99);
    discriminate.
Defined.

(** The supported kinds are sent, queued. *)
Lemma message_supported_kind_sent (w : World) (sm : Msg.t)
    (func : option FuncPtr) (data : gpointer) :
  Msg.type sm = STEAM_MESSAGE_TYPE_SAYTEXT \/
  Msg.type sm = STEAM_MESSAGE_TYPE_EMOTE \/
  Msg.type sm = STEAM_MESSAGE_TYPE_TYPING ->
  exists req,
    In STEAM_HTTP_REQ_FLAG_QUEUED (Req.flags req) /\
    trace (steam_api_message w (Some sm) func data)
    = (trace w
         ++ [HttpReqSend req
               (steam_api_priv_new STEAM_API_TYPE_MESSAGE func data)])%list.
Proof.
  unfold steam_api_message.
  intros [H | [H | H]]; rewrite H; eexists; (split; [|reflexivity]);
    simpl; auto.
Qed.

(** ** Summaries in batches *)

(** The loop always ends: the fuel [steam_api_summaries] starts it with is
    never used up. *)
Lemma summaries_loop_fuel (fuel : nat) :
  forall (s : list string) func data w,
    (List.length s <= fuel)%nat -> (1 <= fuel)%nat ->
    summaries_loop fuel s func data w <> OutOfFuel.
Proof.
  induction fuel as [|fuel IH]; intros s func data w Hlen Hpos.
  - lia.
  - destruct s as [|first next]; [discriminate|].
    cbn [summaries_loop]. cbv zeta.
    pose proof (length_skipn 100 (first :: next)) as Hsk.
    destruct (skipn 100 (first :: next)) as [|e0 e_next];
      [discriminate|].
    cbn [List.length] in Hsk, Hlen.
    apply IH; lia.
Qed.

Lemma steam_api_summaries_ends (w : World) (friends : list string)
    (func : option FuncPtr) (data : gpointer) :
  steam_api_summaries w friends func data <> OutOfFuel.
Proof.
  unfold steam_api_summaries. destruct friends as [|first next].
  - discriminate.
  - apply summaries_loop_fuel; simpl; lia.
Qed.

(** The empty list: no request, and the continuation, if any, is called at
    once with an empty result and no error. *)
Lemma steam_api_summaries_empty (w : World) (data : gpointer) :
  steam_api_summaries w [] None data = Returned w /\
  forall f,
    steam_api_summaries w [] (Some f) data
    = Returned (mkWorld (api w) (queue_paused w)
                  (trace w ++ [CallListFunc f (api w) RNull None data])).
Proof. split; reflexivity. Qed.

Lemma string_app_assoc (a b c : string) : (a ++ b) ++ c = a ++ (b ++ c).
Proof. induction a as [|x a IH]; simpl; [reflexivity | rewrite IH; reflexivity]. Qed.

Lemma join_chunk_concat (others : list string) :
  forall first, join_chunk first others = String.concat "," (first :: others).
Proof.
  unfold join_chunk.
  induction others as [|d rest IH]; intros first; simpl.
  - reflexivity.
  - rewrite IH. simpl. destruct rest as [|y rest].
    + reflexivity.
    + rewrite !string_app_assoc. reflexivity.
Qed.

(** Up to 100 ids go out in one request that carries them all, in order. *)
Lemma steam_api_summaries_one_chunk (w : World) (friends : list string)
    (func : option FuncPtr) (data : gpointer) :
  (1 <= List.length friends <= 100)%nat ->
  exists w',
    steam_api_summaries w friends func data = Returned w' /\
    exists req priv,
      trace w' = (trace w ++ [HttpReqSend req priv])%list /\
      steamids_param req = Some (String.concat "," friends).
Proof.
  intros Hlen. unfold steam_api_summaries.
  destruct friends as [|first next]; [simpl in Hlen; lia|].
  assert (Hfuel : exists f, List.length (first :: next) = S f)
    by (simpl; eauto).
  destruct Hfuel as [f ->]. cbn [summaries_loop].
  rewrite (skipn_all2 (first :: next)) by lia.
  rewrite firstn_all2 by (simpl in Hlen; lia).
  eexists. split; [reflexivity|].
  eexists. eexists. split; [reflexivity|].
  unfold steamids_param. cbn. rewrite join_chunk_concat. reflexivity.
Qed.

(** With exactly 101 ids the loop steps over the 101st node, finds the end
    of the list and reads [s->data] through the NULL pointer. *)
Lemma steam_api_summaries_101_null_deref :
  exists w',
    steam_api_summaries Sample.world (Sample.ids 101) None NULL
    = NullDeref w' /\
    chunks_sent w' = [Sample.ids 100].
Proof. eexists. split; vm_compute; reflexivity. Qed.

(** C5 fails on the code beyond 100 ids: of 102 ids the first request
    carries ids 0..99 and the second only id 101; id 100, the node the
    counting loop stopped at, is stepped over and never requested, so the
    chunks do not partition the input. *)
Theorem steam_api_summaries_skips_101st_id :
  exists w',
    steam_api_summaries Sample.world (Sample.ids 102) None NULL = Returned w' /\
    chunks_sent w' = [Sample.ids 100; ["101"]] /\
    List.concat (chunks_sent w') <> Sample.ids 102 /\
    ~ In "100" (List.concat (chunks_sent w')).
Proof.
  eexists. split; [vm_compute; reflexivity|].
  split; [vm_compute; reflexivity|].
  split.
  - vm_compute. intros H.
    apply (f_equal (@List.length string)) in H. vm_compute in H.
    discriminate.
  - vm_compute. intros H.
    repeat (destruct H as [H|H]; [discriminate H|]). exact H.
Qed.

(** With 201 ids two requests go out, not three. *)
Example steam_api_summaries_201 :
  exists w',
    steam_api_summaries Sample.world (Sample.ids 201) None NULL = Returned w' /\
    List.length (sent_requests w') = 2%nat.
Proof. eexists. split; vm_compute; reflexivity. Qed.

(** ** The relogon round trip *)

(** After the silent retry of the sample send, the response to the Relogon
    request found in the trace runs through the dispatcher: the queue is
    running again and, the context having no continuation, nothing is
    invoked. *)
Example relogon_response_resumes_queue :
  let '(_, _, w1) :=
    steam_api_cb Sample.parse_not_logged_on Sample.message_req
      Sample.message_priv Sample.world in
  queue_paused w1 = true /\
  match trace w1 with
  | [_; HttpReqSend relogon_req relogon_priv; _] =>
      let '(_, _, w2) :=
        steam_api_cb (fun _ => inl (Sample.obj_error "OK")) relogon_req
          relogon_priv w1 in
      queue_paused w2 = false /\
      trace w2 = (trace w1 ++ [HttpQueuePause false])%list
  | _ => False
  end.
Proof. vm_compute. split; [reflexivity|]. split; reflexivity. Qed.

(** * Further properties *)

(** ** What a parse callback may do to the context and to the world *)

Ltac break_match :=
  repeat match goal with
         | |- context [match ?x with _ => _ end] => destruct x eqn:?
         end.

Lemma retry_world (w : World) (r : option Req.t) :
  exists relogon_req relogon_priv,
    Priv.type relogon_priv = STEAM_API_TYPE_RELOGON /\
    Priv.func relogon_priv = None /\
    Req.path relogon_req = STEAM_API_PATH_LOGON /\
    steam_http_req_resend (steam_api_relogon w) r
    = mkWorld (api w) true
        (trace w ++ [HttpQueuePause true;
                     HttpReqSend relogon_req relogon_priv;
                     HttpReqResend r]).
Proof.
  eexists. eexists. split; [|split; [|split]].
  4: { unfold steam_http_req_resend, steam_api_relogon, steam_http_req_send,
         steam_http_queue_pause, emit. simpl.
       rewrite <- !app_assoc. simpl. reflexivity. }
  all: reflexivity.
Qed.

(** A callback leaves the context's operation, continuation, user data and
    request pointer alone. *)
Lemma saf_priv_frame (ty : SteamApiType) (priv : Priv.t) (json : json_value)
    (w : World) :
  let p' := snd (fst (saf ty priv json w)) in
  Priv.type p' = Priv.type priv /\
  Priv.func p' = Priv.func priv /\
  Priv.data p' = Priv.data priv /\
  Priv.req p' = Priv.req priv.
Proof.
  destruct ty; cbn [saf];
    unfold steam_api_auth_cb, steam_api_friends_cb, steam_api_logon_cb,
      steam_api_relogon_cb, steam_api_logoff_cb, steam_api_message_cb,
      steam_api_poll_cb, steam_api_summaries_cb;
    break_match; cbn; auto.
Qed.

(** When a callback answers deliver-now = true it has emitted nothing, or
    (Relogon only) the unpause. *)
Lemma saf_deliver_trace (ty : SteamApiType) (priv : Priv.t)
    (json : json_value) (w : World) :
  fst (fst (saf ty priv json w)) = true ->
  trace (snd (saf ty priv json w))
  = (trace w ++ match ty with
                | STEAM_API_TYPE_RELOGON => [HttpQueuePause false]
                | _ => []
                end)%list.
Proof.
  destruct ty; cbn [saf];
    unfold steam_api_auth_cb, steam_api_friends_cb, steam_api_logon_cb,
      steam_api_relogon_cb, steam_api_logoff_cb, steam_api_message_cb,
      steam_api_poll_cb, steam_api_summaries_cb;
    break_match; cbn; intros H; try discriminate H;
    rewrite ?app_nil_r; reflexivity.
Qed.

Lemma saf_suppressed_effects :
  forall (ty : SteamApiType) (priv : Priv.t) (json : json_value) (w : World),
    fst (fst (saf ty priv json w)) = false ->
    may_retry ty = true /\
    snd (fst (saf ty priv json w)) = priv /\
    queue_paused (snd (saf ty priv json w)) = true /\
    exists events,
      trace (snd (saf ty priv json w)) = (trace w ++ events)%list /\
      is_retry priv events.
Proof.
  intros ty priv json w.
  assert (Hretry : forall w0,
            queue_paused (steam_http_req_resend (steam_api_relogon w0)
                            (Priv.req priv)) = true /\
            exists events,
              trace (steam_http_req_resend (steam_api_relogon w0)
                       (Priv.req priv))
              = (trace w0 ++ events)%list /\
              is_retry priv events).
  { intros w0. destruct (retry_world w0 (Priv.req priv))
      as (rr & rp & Hty & Hf & Hp & Hw).
    rewrite Hw. split; [reflexivity|].
    eexists. split; [reflexivity|]. exists rr, rp. auto. }
  destruct ty; cbn [saf];
    unfold steam_api_auth_cb, steam_api_friends_cb, steam_api_logon_cb,
      steam_api_relogon_cb, steam_api_logoff_cb, steam_api_message_cb,
      steam_api_poll_cb, steam_api_summaries_cb;
    break_match; cbn [fst snd]; intros H; try discriminate H.
  - split; [reflexivity|]. split; [reflexivity|]. apply Hretry.
  - split; [reflexivity|]. split; [reflexivity|].
    destruct (Hretry (with_api w (Api.set_lmid (api w) z)))
      as (Hq & events & Ht & Hr).
    split; [exact Hq|]. exists events. split; [exact Ht | exact Hr].
  - split; [reflexivity|]. split; [reflexivity|]. apply Hretry.
Qed.

Lemma callbacks_poll_frame (priv : Priv.t) (json : json_value) (w : World) :
  Api.token (api (snd (steam_api_poll_cb priv json w))) = Api.token (api w) /\
  Api.umqid (api (snd (steam_api_poll_cb priv json w))) = Api.umqid (api w) /\
  Api.steamid (api (snd (steam_api_poll_cb priv json w)))
  = Api.steamid (api w).
Proof.
  unfold steam_api_poll_cb. break_match; cbn; auto.
Qed.

(** X1: a parse callback that answers deliver-now = false has started a
    silent retry: the operation is SendMessage or Poll, the context is
    unchanged, the queue is paused, and the events emitted are the pause,
    the send of a Relogon request without continuation and the resend of
    the context's own request. Of the session only the last message id
    can have changed, and only for a Poll response, which has stored its
    [messagelast] before it found the sentinel. *)
Theorem suppressed_delivery_is_a_retry :
  forall (ty : SteamApiType) (priv : Priv.t) (json : json_value) (w : World),
    let r := saf ty priv json w in
    fst (fst r) = false ->
    may_retry ty = true /\
    snd (fst r) = priv /\
    queue_paused (snd r) = true /\
    Api.token (api (snd r)) = Api.token (api w) /\
    Api.umqid (api (snd r)) = Api.umqid (api w) /\
    Api.steamid (api (snd r)) = Api.steamid (api w) /\
    Api.lmid (api (snd r))
    = match ty, steam_util_json_int json "messagelast" with
      | STEAM_API_TYPE_POLL, Some m => m
      | _, _ => Api.lmid (api w)
      end /\
    exists events,
      trace (snd r) = (trace w ++ events)%list /\
      is_retry priv events.
Proof.
  intros ty priv json w r Hc. subst r.
  destruct (saf_suppressed_effects ty priv json w Hc)
    as (Hm & Hp & Hq & Hev).
  split; [exact Hm|]. split; [exact Hp|]. split; [exact Hq|].
  destruct ty; try discriminate Hm; cbn [saf] in *.
  - unfold steam_api_message_cb in *.
    destruct (steam_util_json_scmp json "error" (Some "OK")) as [ok str].
    destruct ok; [discriminate Hc|].
    destruct (g_ascii_strcasecmp str (Some "Not Logged On") =? 0);
      [|discriminate Hc].
    repeat (split; [reflexivity|]). exact Hev.
  - pose proof (poll_cb_lmid priv json w) as Hl.
    pose proof (callbacks_poll_frame priv json w) as (Ht & Hu & Hs).
    split; [exact Ht|]. split; [exact Hu|]. split; [exact Hs|].
    split; [|exact Hev].
    rewrite Hl. destruct (steam_util_json_int json "messagelast"); reflexivity.
Qed.

Lemma suppressed_delivery_is_a_retry_witness :
  queue_paused
    (snd (saf STEAM_API_TYPE_POLL Sample.poll_priv Scenario.poll_expired_doc
            Sample.world)) = true /\
  Api.lmid
    (api (snd (saf STEAM_API_TYPE_POLL Sample.poll_priv
                 Scenario.poll_expired_doc Sample.world))) = 42.
Proof.
  pose proof (suppressed_delivery_is_a_retry STEAM_API_TYPE_POLL
                Sample.poll_priv Scenario.poll_expired_doc Sample.world
                eq_refl) as (_ & _ & Hq & _ & _ & _ & Hl & _).
  split; [exact Hq | exact Hl].
Defined.

(** ** The dispatcher *)

Lemma is_retry_no_calls (priv : Priv.t) (events : list Event) :
  is_retry priv events -> calls_in events = [].
Proof. intros (rr & rp & _ & _ & _ & ->). reflexivity. Qed.

(** Every callback's own events are transport calls. *)
Lemma saf_events (ty : SteamApiType) (priv : Priv.t) (json : json_value)
    (w : World) :
  exists events,
    trace (snd (saf ty priv json w)) = (trace w ++ events)%list /\
    calls_in events = [] /\
    (fst (fst (saf ty priv json w)) = false -> may_retry ty = true).
Proof.
  destruct (fst (fst (saf ty priv json w))) eqn:Hc.
  - eexists. split; [apply saf_deliver_trace, Hc|].
    split; [destruct ty; reflexivity | discriminate].
  - destruct (saf_suppressed_effects ty priv json w Hc)
      as (Hm & _ & _ & events & Ht & Hr).
    exists events. split; [exact Ht|].
    split; [apply (is_retry_no_calls _ _ Hr) | intros _; exact Hm].
Qed.

(** The shape of every run of the dispatcher: transport events that are
    no continuation calls, then the prefixing of the error and one
    continuation call or none. *)
Lemma steam_api_cb_decompose
    (parse : option string -> json_value + string) (req : Req.t)
    (priv : Priv.t) (w : World) :
  exists (callf : bool) (p1 : Priv.t) (w1 : World) (pre : list Event),
    trace w1 = (trace w ++ pre)%list /\
    calls_in pre = [] /\
    Priv.type p1 = Priv.type priv /\
    Priv.func p1 = Priv.func priv /\
    Priv.data p1 = Priv.data priv /\
    (callf = false -> may_retry (Priv.type priv) = true) /\
    (snd (fst (steam_api_cb parse req priv w)),
     snd (steam_api_cb parse req priv w)) = finish callf p1 w1.
Proof.
  unfold steam_api_cb.
  destruct (Req.err req) as [e|].
  - exists true, (Priv.set_err priv (g_propagate_error (Priv.err priv) e)),
      w, [].
    rewrite app_nil_r. destruct priv as [ty err0 f d rd rf rq].
    repeat (split; [first [reflexivity | discriminate]|]).
    destruct err0; reflexivity.
  - destruct (parse (Req.body req)) as [json|diag].
    + destruct (Priv.err priv) as [e0|] eqn:He0.
      * exists true, priv, w, [].
        rewrite app_nil_r. destruct priv as [ty err0 f d rd rf rq].
        cbn in He0. subst err0.
        repeat (split; [first [reflexivity | discriminate]|]).
        reflexivity.
      * pose proof (saf_priv_frame (Priv.type priv)
                      (Priv.set_req priv (Some req)) json w) as Hframe.
        pose proof (saf_events (Priv.type priv)
                      (Priv.set_req priv (Some req)) json w) as Hev.
        replace (Priv.type (Priv.set_req priv (Some req)))
          with (Priv.type priv) by (destruct priv; reflexivity).
        destruct (saf (Priv.type priv) (Priv.set_req priv (Some req)) json w)
          as [[callf p1] w1].
        cbn [fst snd] in Hframe, Hev.
        destruct Hframe as (Hty & Hf & Hd & _).
        destruct Hev as (events & Ht & Hc & Hm).
        exists callf, (Priv.set_req p1 None), w1, events.
        split; [exact Ht|]. split; [exact Hc|].
        destruct priv as [ty err0 f d rd rf rq].
        destruct p1 as [ty1 err1 f1 d1 rd1 rf1 rq1].
        cbn in *. subst ty1 f1 d1.
        repeat (split; [first [reflexivity | assumption]|]).
        reflexivity.
    + exists true,
        (set_api_error priv STEAM_API_ERROR_PARSER ("Parser: " ++ diag)),
        w, [].
      rewrite app_nil_r. destruct priv as [ty err0 f d rd rf rq].
      repeat (split; [first [reflexivity | discriminate]|]).
      destruct err0; reflexivity.
Qed.

Lemma call_func_event (p : Priv.t) (f : FuncPtr) (w : World) :
  exists ev,
    call_func p f w = mkWorld (api w) (queue_paused w) (trace w ++ [ev]) /\
    is_call ev = true /\
    call_target ev = Some (f, Priv.data p) /\
    call_error ev = Priv.err p.
Proof.
  unfold call_func, emit.
  destruct (Priv.type p); eexists; repeat split; reflexivity.
Qed.

Lemma calls_in_app (a b : list Event) :
  calls_in (a ++ b) = (calls_in a ++ calls_in b)%list.
Proof. apply filter_app. Qed.

(** X2: a transport failure short-circuits the dispatcher. The tokenizer's
    answer is not used and no parse callback runs, so the session and the
    queue are as before; the transport's error, with its own domain and
    code, gets the operation's name in front of its message and is handed
    to the continuation, if there is one; the request's error slot is
    emptied. *)
Theorem steam_api_cb_transport_error :
  forall (parse : option string -> json_value + string) (req : Req.t)
         (priv : Priv.t) (w : World) (e : GError),
    Req.err req = Some e ->
    Priv.err priv = None ->
    let p' :=
      Priv.set_err priv
        (Some (mkGError (domain e) (code e)
                 ((steam_api_type_str (Priv.type priv) ++ ": ")
                  ++ message e))) in
    steam_api_cb parse req priv w
    = (Req.set_err req None, p',
       match Priv.func priv with
       | Some f => call_func p' f w
       | None => w
       end).
Proof.
  intros parse req priv w e Hreq Herr p'. subst p'.
  unfold steam_api_cb. rewrite Hreq.
  destruct priv as [ty err0 f d rd rf rq]. cbn in Herr. subst err0.
  reflexivity.
Qed.

(** X3: a body the tokenizer rejects is reported as a Parser error whose
    message is the operation's name, "Parser: " and the tokenizer's
    diagnostic; no parse callback runs, so the session and the queue are
    as before, and the continuation, if there is one, receives the
    error. *)
Theorem steam_api_cb_parser_error :
  forall (parse : option string -> json_value + string) (req : Req.t)
         (priv : Priv.t) (w : World) (diag : string),
    Req.err req = None ->
    Priv.err priv = None ->
    parse (Req.body req) = inr diag ->
    let p' :=
      Priv.set_err priv
        (Some (mkGError STEAM_API_ERROR (ApiCode STEAM_API_ERROR_PARSER)
                 ((steam_api_type_str (Priv.type priv) ++ ": ")
                  ++ "Parser: " ++ diag))) in
    steam_api_cb parse req priv w
    = (req, p',
       match Priv.func priv with
       | Some f => call_func p' f w
       | None => w
       end).
Proof.
  intros parse req priv w diag Hreq Herr Hparse p'. subst p'.
  unfold steam_api_cb. rewrite Hreq, Hparse.
  destruct priv as [ty err0 f d rd rf rq]. cbn in Herr. subst err0.
  reflexivity.
Qed.

(** X4: one run of the dispatcher calls a continuation at most once and
    only the context's own: without a continuation nothing is called;
    with one, either nothing is called or the call is the last event, goes
    to that continuation with the context's user data, and an error it
    hands over has the operation's name in front of its message. *)
Theorem steam_api_cb_calls_at_most_once :
  forall (parse : option string -> json_value + string) (req : Req.t)
         (priv : Priv.t) (w : World),
    exists events,
      trace (snd (steam_api_cb parse req priv w)) = (trace w ++ events)%list /\
      match Priv.func priv with
      | None => calls_in events = []
      | Some f =>
          calls_in events = [] \/
          exists pre ev,
            events = (pre ++ [ev])%list /\
            calls_in pre = [] /\
            call_target ev = Some (f, Priv.data priv) /\
            match call_error ev with
            | None => True
            | Some e =>
                exists m,
                  message e
                  = (steam_api_type_str (Priv.type priv) ++ ": ") ++ m
            end
      end.
Proof.
  intros parse req priv w.
  destruct (steam_api_cb_decompose parse req priv w)
    as (callf & p1 & w1 & pre & Ht & Hc & Hty & Hf & Hd & _ & Hfin).
  unfold finish in Hfin. injection Hfin as Hp Hw. rewrite Hw. rewrite Hf.
  destruct callf.
  - destruct (Priv.func priv) as [f|].
    + destruct (call_func_event
                  (Priv.set_err p1
                     (g_prefix_error (Priv.err p1)
                        (steam_api_type_str (Priv.type p1) ++ ": "))) f w1)
        as (ev & Hcall & _ & Htarget & Herror).
      exists (pre ++ [ev])%list. rewrite Hcall. cbn [trace].
      rewrite Ht, <- app_assoc. split; [reflexivity|].
      right. exists pre, ev. split; [reflexivity|]. split; [exact Hc|].
      split.
      * rewrite Htarget. destruct p1; cbn in *. subst. reflexivity.
      * rewrite Herror. destruct p1 as [ty1 [e1|] f1 d1 rd1 rf1 rq1];
          cbn in *; [|exact I]. subst. eexists. reflexivity.
    + exists pre. split; [exact Ht | exact Hc].
  - exists pre. split; [exact Ht|].
    destruct (Priv.func priv); [left|]; exact Hc.
Qed.

(** X5: for the operations whose callback never asks for a retry (all but
    SendMessage and Poll), a context with a continuation gets exactly one
    call per response, as the last event, whatever the response was:
    transport failure, unparsable body or any document. *)
Theorem steam_api_cb_calls_exactly_once :
  forall (parse : option string -> json_value + string) (req : Req.t)
         (priv : Priv.t) (w : World) (f : FuncPtr),
    may_retry (Priv.type priv) = false ->
    Priv.func priv = Some f ->
    exists pre ev,
      trace (snd (steam_api_cb parse req priv w))
      = (trace w ++ pre ++ [ev])%list /\
      calls_in pre = [] /\
      is_call ev = true /\
      call_target ev = Some (f, Priv.data priv) /\
      call_error ev = Priv.err (snd (fst (steam_api_cb parse req priv w))).
Proof.
  intros parse req priv w f Hno Hfunc.
  destruct (steam_api_cb_decompose parse req priv w)
    as (callf & p1 & w1 & pre & Ht & Hc & Hty & Hf & Hd & Hm & Hfin).
  unfold finish in Hfin. injection Hfin as Hp Hw. rewrite Hw, Hp.
  destruct callf.
  - rewrite Hf, Hfunc.
    destruct (call_func_event
                (Priv.set_err p1
                   (g_prefix_error (Priv.err p1)
                      (steam_api_type_str (Priv.type p1) ++ ": "))) f w1)
      as (ev & Hcall & Hiscall & Htarget & Herror).
    exists pre, ev. rewrite Hcall. cbn [trace]. rewrite Ht, <- app_assoc.
    split; [reflexivity|]. split; [exact Hc|]. split; [exact Hiscall|].
    split; [|exact Herror].
    rewrite Htarget. destruct p1; cbn in *. subst. reflexivity.
  - rewrite Hm in Hno by reflexivity. discriminate.
Qed.

Lemma steam_api_cb_transport_error_witness :
  snd (steam_api_cb Scenario.parse_garbage Scenario.failed_req
         Sample.message_priv Sample.world)
  = mkWorld Sample.session false
      [CallApiFunc 1%nat Sample.session
         (Some (mkGError "steam-http-error-quark" (ForeignCode 1)
                  "Message: Connection timed out")) 99].
Proof.
  rewrite (steam_api_cb_transport_error Scenario.parse_garbage
             Scenario.failed_req Sample.message_priv Sample.world
             Scenario.transport_error eq_refl eq_refl).
  reflexivity.
Defined.

Lemma steam_api_cb_parser_error_witness :
  snd (steam_api_cb Scenario.parse_garbage Scenario.poll_req
         Sample.poll_priv Sample.world)
  = mkWorld Sample.session false
      [CallListFunc 2%nat Sample.session RNull
         (Some (mkGError STEAM_API_ERROR (ApiCode STEAM_API_ERROR_PARSER)
                  "Polling: Parser: Unexpected < at 1:1")) 99].
Proof.
  rewrite (steam_api_cb_parser_error Scenario.parse_garbage
             Scenario.poll_req Sample.poll_priv Sample.world
             "Unexpected < at 1:1" eq_refl eq_refl eq_refl).
  reflexivity.
Defined.

Lemma steam_api_cb_calls_exactly_once_witness :
  exists pre ev,
    trace (snd (steam_api_cb (fun _ => inl (Sample.obj_error "Denied"))
                  Scenario.logoff_req Scenario.logoff_priv Sample.world))
    = ([] ++ pre ++ [ev])%list /\
    calls_in pre = [] /\
    call_target ev = Some (6%nat, 99).
Proof.
  destruct (steam_api_cb_calls_exactly_once
              (fun _ => inl (Sample.obj_error "Denied"))
              Scenario.logoff_req Scenario.logoff_priv Sample.world 6%nat
              eq_refl eq_refl)
    as (pre & ev & Ht & Hc & _ & Htarget & _).
  exists pre, ev. split; [exact Ht|]. split; [exact Hc | exact Htarget].
Defined.

(** ** Logon and logoff responses *)

(** What the compare-and-replace step of the logon callback leaves in a
    session field: the member of the response, present or not. *)
Lemma scmp_replace (json : json_value) (name : string) (old : option string) :
  (if negb (fst (steam_util_json_scmp json name old))
   then snd (steam_util_json_scmp json name old)
   else old)
  = steam_util_json_str json name.
Proof.
  pose proof (scmp_true_iff json name old) as Hs.
  rewrite scmp_str.
  destruct (fst (steam_util_json_scmp json name old)); simpl.
  - destruct Hs as [Hs _]. destruct (Hs eq_refl) as (s & -> & ->).
    reflexivity.
  - reflexivity.
Qed.

(** X6: a Logon response whose [error] is "OK" rewrites the session from
    the response: the last message id becomes [message] (0 when absent),
    and the account id and queue id become the response's [steamid] and
    [umqid], members that are absent leaving the session without the
    value; the token, the queue and the context are untouched. Any other
    response leaves the whole world as it was and the context's error is
    then the Logon error with the server's string. *)
Theorem logon_cb_outcome :
  forall (priv : Priv.t) (json : json_value) (w : World),
    Priv.err priv = None ->
    let r := steam_api_logon_cb priv json w in
    (steam_util_json_str json "error" = Some "OK" ->
     r = (true, priv,
          mkWorld (Api.mk (Api.token (api w))
                     (steam_util_json_str json "umqid")
                     (steam_util_json_str json "steamid")
                     (steam_util_json_int_out json "message"))
            (queue_paused w) (trace w)) /\
     Priv.err (snd (fst r)) = None) /\
    (steam_util_json_str json "error" <> Some "OK" ->
     fst (fst r) = true /\
     snd r = w /\
     Priv.rdata (snd (fst r)) = Priv.rdata priv /\
     Priv.err (snd (fst r))
     = Some (mkGError STEAM_API_ERROR (ApiCode STEAM_API_ERROR_LOGON)
               (fmt_s (steam_util_json_str json "error")))).
Proof.
  intros priv json w Herr r. subst r. unfold steam_api_logon_cb. split.
  - intros Hok. rewrite (scmp_literal _ _ _ _ Hok).
    change (String.eqb "OK" "OK") with true. cbn [negb].
    pose proof (scmp_replace json "steamid" (Api.steamid (api w))) as Hsid.
    destruct (steam_util_json_scmp json "steamid" _) as [same1 str1].
    cbn [fst snd] in Hsid.
    match goal with
    | |- context [steam_util_json_scmp json "umqid" ?old] =>
        pose proof (scmp_replace json "umqid" old) as Huq;
        destruct (steam_util_json_scmp json "umqid" old) as [same2 str2]
    end.
    cbn [fst snd] in Huq.
    destruct w as [[tok uq sid lm] paused tr]. cbn in *.
    destruct same1, same2; cbn in *; subst; split; first [reflexivity | assumption].
  - intros Hne.
    pose proof (scmp_true_iff json "error" (Some "OK")) as Hs.
    pose proof (scmp_str json "error" (Some "OK")) as Hstr.
    destruct (steam_util_json_scmp json "error" (Some "OK")) as [ok str].
    cbn [fst snd] in Hs, Hstr. subst str.
    destruct ok.
    + exfalso. apply Hne. destruct Hs as [Hs _].
      destruct (Hs eq_refl) as (s & Hm & Hx). injection Hm as <-. exact Hx.
    + cbn [negb fst snd]. unfold set_api_error. rewrite Herr.
      destruct priv; repeat split.
Qed.

Lemma logon_cb_outcome_witness :
  steam_api_logon_cb Sample.logon_priv Scenario.logon_doc Sample.world
  = (true, Sample.logon_priv,
     mkWorld (Api.mk (Some "token") None (Some "76561197960265728") 17)
       false []) /\
  Priv.err
    (snd (fst (steam_api_logon_cb Sample.logon_priv
                 (Sample.obj_error "Expired") Sample.world)))
  = Some (mkGError STEAM_API_ERROR (ApiCode STEAM_API_ERROR_LOGON) "Expired")
  /\
  Api.lmid
    (api (snd (steam_api_logon_cb Sample.logon_priv
                 (Sample.obj_error "Expired") Sample.world)))
  = 0.
Proof.
  pose proof (proj1 (logon_cb_outcome Sample.logon_priv Scenario.logon_doc
                       Sample.world eq_refl) eq_refl) as (Hok & _).
  assert (Hne : steam_util_json_str (Sample.obj_error "Expired") "error"
                <> Some "OK") by discriminate.
  pose proof (proj2 (logon_cb_outcome Sample.logon_priv
                       (Sample.obj_error "Expired") Sample.world eq_refl)
                Hne) as (_ & Hw & _ & Herr).
  split; [exact Hok|]. split; [exact Herr|].
  rewrite Hw. reflexivity.
Defined.

(** X7: the Logoff callback never touches the session, the queue or the
    trace and always answers deliver-now = true; the context's error
    stays empty when [error] is "OK" and is otherwise the Logoff error
    with the server's string. *)
Theorem logoff_cb_outcome :
  forall (priv : Priv.t) (json : json_value) (w : World),
    Priv.err priv = None ->
    let r := steam_api_logoff_cb priv json w in
    fst (fst r) = true /\
    snd r = w /\
    Priv.rdata (snd (fst r)) = Priv.rdata priv /\
    (steam_util_json_str json "error" = Some "OK" ->
     snd (fst r) = priv /\ Priv.err (snd (fst r)) = None) /\
    (steam_util_json_str json "error" <> Some "OK" ->
     Priv.err (snd (fst r))
     = Some (mkGError STEAM_API_ERROR (ApiCode STEAM_API_ERROR_LOGOFF)
               (fmt_s (steam_util_json_str json "error")))).
Proof.
  intros priv json w Herr r. subst r. unfold steam_api_logoff_cb.
  pose proof (scmp_true_iff json "error" (Some "OK")) as Hs.
  pose proof (scmp_str json "error" (Some "OK")) as Hstr.
  destruct (steam_util_json_scmp json "error" (Some "OK")) as [ok str].
  cbn [fst snd] in Hs, Hstr. subst str.
  destruct ok; cbn [fst snd].
  - repeat (split; [reflexivity|]). split.
    + intros _. split; [reflexivity | exact Herr].
    + intros Hne. exfalso. apply Hne. destruct Hs as [Hs _].
      destruct (Hs eq_refl) as (s & Hm & Hx). injection Hm as <-. exact Hx.
  - unfold set_api_error. rewrite Herr.
    split; [reflexivity|]. split; [reflexivity|].
    split; [destruct priv; reflexivity|]. split.
    + intros Hok. assert (false = true) by (apply Hs; eauto). discriminate.
    + intros _. destruct priv; reflexivity.
Qed.

Lemma logoff_cb_outcome_witness :
  Priv.err
    (snd (fst (steam_api_logoff_cb Scenario.logoff_priv
                 (Sample.obj_error "Denied") Sample.world)))
  = Some (mkGError STEAM_API_ERROR (ApiCode STEAM_API_ERROR_LOGOFF) "Denied")
  /\
  Priv.err
    (snd (fst (steam_api_logoff_cb Scenario.logoff_priv
                 (Sample.obj_error "OK") Sample.world)))
  = None.
Proof.
  pose proof (logoff_cb_outcome Scenario.logoff_priv
                (Sample.obj_error "Denied") Sample.world eq_refl)
    as (_ & _ & _ & _ & Hfail).
  pose proof (logoff_cb_outcome Scenario.logoff_priv
                (Sample.obj_error "OK") Sample.world eq_refl)
    as (_ & _ & _ & Hok & _).
  split.
  - apply Hfail. discriminate.
  - apply Hok. reflexivity.
Defined.

(** ** The other answers to a message *)

(** X8: a SendMessage response whose [error] is "OK" is delivered with
    the context's error empty; one whose [error] is another string that
    is not the session-expiry sentinel is delivered with the context's
    error being the Message error carrying that string. In both cases
    the session, the queue and the trace are untouched: nothing is
    resent. *)
Theorem message_cb_delivered_outcomes :
  forall (priv : Priv.t) (json : json_value) (w : World) (s : string),
    Priv.err priv = None ->
    steam_util_json_str json "error" = Some s ->
    let r := steam_api_message_cb priv json w in
    (s = "OK" -> r = (true, priv, w) /\ Priv.err (snd (fst r)) = None) /\
    (s <> "OK" ->
     g_ascii_strcasecmp (Some s) (Some "Not Logged On") <> 0 ->
     fst (fst r) = true /\
     snd r = w /\
     Priv.rdata (snd (fst r)) = Priv.rdata priv /\
     Priv.err (snd (fst r))
     = Some (mkGError STEAM_API_ERROR (ApiCode STEAM_API_ERROR_MESSAGE) s)).
Proof.
  intros priv json w s Herr Hstr r. subst r. unfold steam_api_message_cb.
  rewrite (scmp_literal _ _ _ _ Hstr). split.
  - intros ->. cbn. split; [reflexivity | exact Herr].
  - intros Hne Hcmp.
    destruct (String.eqb_spec "OK" s) as [E|_]; [congruence|].
    destruct (Z.eqb_spec (g_ascii_strcasecmp (Some s) (Some "Not Logged On")) 0)
      as [E|_]; [contradiction|].
    unfold set_api_error. rewrite Herr. destruct priv; repeat split.
Qed.

Lemma message_cb_delivered_outcomes_witness :
  Priv.err
    (snd (fst (steam_api_message_cb Sample.message_priv
                 (Sample.obj_error "Friend Offline") Sample.world)))
  = Some (mkGError STEAM_API_ERROR (ApiCode STEAM_API_ERROR_MESSAGE)
            "Friend Offline") /\
  snd (steam_api_message_cb Sample.message_priv
         (Sample.obj_error "Friend Offline") Sample.world)
  = Sample.world.
Proof.
  assert (Hcmp : g_ascii_strcasecmp (Some "Friend Offline")
                   (Some "Not Logged On") <> 0)
    by (vm_compute; discriminate).
  assert (Hne : "Friend Offline" <> "OK") by discriminate.
  pose proof (proj2 (message_cb_delivered_outcomes Sample.message_priv
                       (Sample.obj_error "Friend Offline") Sample.world
                       "Friend Offline" eq_refl eq_refl) Hne Hcmp)
    as (_ & Hw & _ & Herr).
  split; [exact Herr | exact Hw].
Defined.

(** ** The answers to a poll *)

Lemma steam_api_poll_cb_eq (priv : Priv.t) (json : json_value) (w : World) :
  steam_api_poll_cb priv json w
  = let w1 := poll_world w json in
    let str := steam_util_json_str json "error" in
    if ((match str with Some _ => true | None => false end)
        && negb (g_ascii_strcasecmp str (Some "Timeout") =? 0)
        && negb (g_ascii_strcasecmp str (Some "OK") =? 0))%bool
    then
      if g_ascii_strcasecmp str (Some "Not Logged On") =? 0 then
        (false, priv,
         steam_http_req_resend (steam_api_relogon w1) (Priv.req priv))
      else (true, set_api_error priv STEAM_API_ERROR_POLL (fmt_s str), w1)
    else
      match steam_util_json_val json "messages" json_array_t with
      | Some (json_array values) =>
          (true,
           Priv.set_result priv
             (RMessages
                (rev (prepend_loop
                        (steam_api_poll_entry (Api.steamid (api w1)))
                        values)))
             steam_slist_free_full, w1)
      | _ => (true, priv, w1)
      end.
Proof. reflexivity. Qed.

Lemma poll_guard (json : json_value) (s : string) :
  steam_util_json_str json "error" = Some s ->
  (match steam_util_json_str json "error" with
   | Some _ => true
   | None => false
   end
   && negb (g_ascii_strcasecmp (steam_util_json_str json "error")
              (Some "Timeout") =? 0)
   && negb (g_ascii_strcasecmp (steam_util_json_str json "error")
              (Some "OK") =? 0))%bool
  = poll_error_string s.
Proof. intros ->. reflexivity. Qed.

Lemma not_logged_on_is_poll_error (s : string) :
  g_ascii_strcasecmp (Some s) (Some "Not Logged On") = 0 ->
  poll_error_string s = true.
Proof.
  intros H. unfold poll_error_string.
  destruct s as [|c s]; [vm_compute in H; discriminate|].
  cbn [g_ascii_strcasecmp ascii_strcasecmp] in *.
  destruct (Z.eqb_spec (byte_of (g_ascii_tolower c)) (byte_of "n"%char))
    as [E|E].
  - rewrite E. reflexivity.
  - exfalso. revert H. change (g_ascii_tolower "N"%char) with "n"%char.
    destruct (byte_of (g_ascii_tolower c) =? byte_of "n"%char) eqn:Heq.
    + apply Z.eqb_eq in Heq. contradiction.
    + lia.
Qed.

(** X9: a Poll response whose [error] is the session-expiry sentinel, in
    any letter case, is retried silently like a message: after the last
    message id has been taken from [messagelast], the queue is paused, a
    Relogon request without continuation is sent and the poll request is
    resent; the dispatcher calls no continuation and leaves the context
    without error or result. *)
Theorem poll_not_logged_on_silent_retry :
  forall (parse : option string -> json_value + string) (req : Req.t)
         (priv : Priv.t) (w : World) (json : json_value) (s : string),
    Priv.type priv = STEAM_API_TYPE_POLL ->
    Priv.err priv = None ->
    Req.err req = None ->
    parse (Req.body req) = inl json ->
    steam_util_json_str json "error" = Some s ->
    g_ascii_strcasecmp (Some s) (Some "Not Logged On") = 0 ->
    exists events,
      is_retry (Priv.set_req priv (Some req)) events /\
      steam_api_cb parse req priv w
      = (req, Priv.set_req priv None,
         mkWorld (api (poll_world w json)) true (trace w ++ events)).
Proof.
  intros parse req priv w json s Hty Herr Hreq Hparse Hstr Hcmp.
  destruct (retry_world (poll_world w json) (Some req))
    as (rr & rp & Hrty & Hrf & Hrp & Hw).
  eexists. split.
  { exists rr, rp. repeat split; assumption. }
  unfold steam_api_cb. rewrite Hreq, Hparse, Herr.
  destruct priv as [ty e f d rd rf rq]. cbn in Hty, Herr. subst ty e.
  cbn [Priv.type Priv.set_req saf].
  rewrite steam_api_poll_cb_eq. cbv zeta.
  rewrite (poll_guard _ _ Hstr), (not_logged_on_is_poll_error _ Hcmp).
  rewrite Hstr, Hcmp. cbn [Z.eqb Priv.req Priv.set_req]. rewrite Hw.
  assert (Ht : trace (poll_world w json) = trace w).
  { unfold poll_world.
    destruct (steam_util_json_int json "messagelast"); reflexivity. }
  rewrite Ht. reflexivity.
Qed.

Lemma poll_not_logged_on_silent_retry_witness :
  exists events,
    snd (steam_api_cb (fun _ => inl (Sample.obj_error "NOT LOGGED ON"))
           Scenario.poll_req Sample.poll_priv Sample.world)
    = mkWorld Sample.session true events /\
    calls_in events = [].
Proof.
  destruct (poll_not_logged_on_silent_retry
              (fun _ => inl (Sample.obj_error "NOT LOGGED ON"))
              Scenario.poll_req Sample.poll_priv Sample.world
              (Sample.obj_error "NOT LOGGED ON") "NOT LOGGED ON"
              eq_refl eq_refl eq_refl eq_refl eq_refl eq_refl)
    as (events & (rr & rp & _ & _ & _ & Hev) & Hrun).
  exists events. rewrite Hrun. split; [reflexivity|].
  rewrite Hev. reflexivity.
Defined.

(** X10: a Poll response whose [error] is a string other than "Timeout",
    "OK" and the session-expiry sentinel (letter case ignored) fails the
    poll: the context's error is the Poll error carrying that string, the
    [messages] of the same response are not looked at (the result slot
    stays as it was), nothing is sent, and of the session only the last
    message id can have changed, to [messagelast] when the response has
    one. *)
Theorem poll_cb_failed :
  forall (priv : Priv.t) (json : json_value) (w : World) (s : string),
    Priv.err priv = None ->
    steam_util_json_str json "error" = Some s ->
    poll_error_string s = true ->
    g_ascii_strcasecmp (Some s) (Some "Not Logged On") <> 0 ->
    let r := steam_api_poll_cb priv json w in
    fst (fst r) = true /\
    Priv.err (snd (fst r))
    = Some (mkGError STEAM_API_ERROR (ApiCode STEAM_API_ERROR_POLL) s) /\
    Priv.rdata (snd (fst r)) = Priv.rdata priv /\
    trace (snd r) = trace w /\
    queue_paused (snd r) = queue_paused w /\
    Api.token (api (snd r)) = Api.token (api w) /\
    Api.umqid (api (snd r)) = Api.umqid (api w) /\
    Api.steamid (api (snd r)) = Api.steamid (api w) /\
    Api.lmid (api (snd r))
    = match steam_util_json_int json "messagelast" with
      | Some m => m
      | None => Api.lmid (api w)
      end.
Proof.
  intros priv json w s Herr Hstr Hbad Hcmp r. subst r.
  rewrite steam_api_poll_cb_eq. cbv zeta.
  rewrite (poll_guard _ _ Hstr), Hbad, Hstr.
  destruct (Z.eqb_spec (g_ascii_strcasecmp (Some s) (Some "Not Logged On")) 0)
    as [E|_]; [contradiction|].
  unfold set_api_error, poll_world. rewrite Herr. cbn [fst snd].
  destruct priv; destruct (steam_util_json_int json "messagelast");
    repeat split.
Qed.

Lemma poll_cb_failed_witness :
  Priv.err
    (snd (fst (steam_api_poll_cb Sample.poll_priv Scenario.poll_failed_doc
                 Sample.world)))
  = Some (mkGError STEAM_API_ERROR (ApiCode STEAM_API_ERROR_POLL)
            "Bad Request") /\
  Priv.rdata
    (snd (fst (steam_api_poll_cb Sample.poll_priv Scenario.poll_failed_doc
                 Sample.world)))
  = RNull /\
  Api.lmid
    (api (snd (steam_api_poll_cb Sample.poll_priv Scenario.poll_failed_doc
                 Sample.world)))
  = 42.
Proof.
  assert (Hcmp : g_ascii_strcasecmp (Some "Bad Request")
                   (Some "Not Logged On") <> 0)
    by (vm_compute; discriminate).
  pose proof (poll_cb_failed Sample.poll_priv Scenario.poll_failed_doc
                Sample.world "Bad Request" eq_refl eq_refl eq_refl Hcmp)
    as (_ & Herr & Hdata & _ & _ & _ & _ & _ & Hlmid).
  split; [exact Herr|]. split; [exact Hdata | exact Hlmid].
Defined.

(** X11: "Timeout" and "OK", in any letter case, are no errors for a
    poll, and neither is a missing [error]: the context's error stays as
    it was, nothing is sent, and the result slot holds the entries the
    loop keeps from [messages], in document order; without a [messages]
    array (a timed-out poll) the result slot is left alone, so the
    continuation gets an empty list. Of the session only the last
    message id can have changed. *)
Theorem poll_cb_benign_error :
  forall (priv : Priv.t) (json : json_value) (w : World),
    match steam_util_json_str json "error" with
    | Some s => poll_error_string s = false
    | None => True
    end ->
    let r := steam_api_poll_cb priv json w in
    fst (fst r) = true /\
    Priv.err (snd (fst r)) = Priv.err priv /\
    Priv.rdata (snd (fst r))
    = match steam_util_json_val json "messages" json_array_t with
      | Some (json_array values) =>
          RMessages (kept (steam_api_poll_entry (Api.steamid (api w)))
                       values)
      | _ => Priv.rdata priv
      end /\
    trace (snd r) = trace w /\
    queue_paused (snd r) = queue_paused w /\
    Api.token (api (snd r)) = Api.token (api w) /\
    Api.umqid (api (snd r)) = Api.umqid (api w) /\
    Api.steamid (api (snd r)) = Api.steamid (api w) /\
    Api.lmid (api (snd r))
    = match steam_util_json_int json "messagelast" with
      | Some m => m
      | None => Api.lmid (api w)
      end.
Proof.
  intros priv json w Hbenign r. subst r.
  rewrite steam_api_poll_cb_eq. cbv zeta.
  assert (Hguard :
    (match steam_util_json_str json "error" with
     | Some _ => true
     | None => false
     end
     && negb (g_ascii_strcasecmp (steam_util_json_str json "error")
                (Some "Timeout") =? 0)
     && negb (g_ascii_strcasecmp (steam_util_json_str json "error")
                (Some "OK") =? 0))%bool = false).
  { destruct (steam_util_json_str json "error") as [s|] eqn:Hstr.
    - exact Hbenign.
    - reflexivity. }
  rewrite Hguard.
  assert (Hsid : Api.steamid (api (poll_world w json)) = Api.steamid (api w)).
  { unfold poll_world.
    destruct (steam_util_json_int json "messagelast"); reflexivity. }
  assert (Hworld :
    trace (poll_world w json) = trace w /\
    queue_paused (poll_world w json) = queue_paused w /\
    Api.token (api (poll_world w json)) = Api.token (api w) /\
    Api.umqid (api (poll_world w json)) = Api.umqid (api w) /\
    Api.steamid (api (poll_world w json)) = Api.steamid (api w) /\
    Api.lmid (api (poll_world w json))
    = match steam_util_json_int json "messagelast" with
      | Some m => m
      | None => Api.lmid (api w)
      end).
  { unfold poll_world.
    destruct (steam_util_json_int json "messagelast"); repeat split. }
  destruct (steam_util_json_val json "messages" json_array_t)
    as [[| |values| | | | |]|]; cbn [fst snd];
    try (split; [reflexivity|]; split; [reflexivity|];
         split; [reflexivity|]; exact Hworld).
  rewrite prepend_loop_kept, rev_involutive.
  split; [reflexivity|]. split; [destruct priv; reflexivity|].
  split; [rewrite Hsid; destruct priv; reflexivity|]. exact Hworld.
Qed.

Lemma poll_cb_benign_error_witness :
  Priv.rdata
    (snd (fst (steam_api_poll_cb Sample.poll_priv Scenario.poll_timeout_doc
                 Sample.world)))
  = RMessages [Msg.mk STEAM_MESSAGE_TYPE_SAYTEXT (Some "1") (Some "hi") None 0]
  /\
  Priv.err
    (snd (fst (steam_api_poll_cb Sample.poll_priv Scenario.poll_timeout_doc
                 Sample.world)))
  = None /\
  Priv.rdata
    (snd (fst (steam_api_poll_cb Sample.poll_priv (Sample.obj_error "timeout")
                 Sample.world)))
  = RNull.
Proof.
  pose proof (poll_cb_benign_error Sample.poll_priv Scenario.poll_timeout_doc
                Sample.world eq_refl) as (_ & Herr & Hdata & _).
  pose proof (poll_cb_benign_error Sample.poll_priv
                (Sample.obj_error "timeout") Sample.world eq_refl)
    as (_ & _ & Hnone & _).
  split; [exact Hdata|]. split; [exact Herr | exact Hnone].
Defined.

(** ** Summaries *)

(** X12: from a [players] array the Summaries callback keeps every entry
    that has a [steamid] string and no other, with absent optional members
    left NULL and the state being [personastate] (0 when absent) narrowed
    to the enumeration's 32 bits; the list delivered is in reverse
    document order; an empty list makes the context's error the Summaries
    error and a non-empty one leaves it empty. Without a [players] array
    the error is the same and the result slot is left alone. The world is
    never changed. *)
Theorem summaries_cb_outcome :
  forall (priv : Priv.t) (json : json_value) (w : World),
    Priv.err priv = None ->
    let r := steam_api_summaries_cb priv json w in
    fst (fst r) = true /\
    snd r = w /\
    match steam_util_json_val json "players" json_array_t with
    | Some (json_array values) =>
        exists mu,
          Priv.rdata (snd (fst r)) = RSummaries mu /\
          mu = rev (kept steam_api_summaries_entry values) /\
          (forall ss,
              In ss mu <->
              exists je id,
                In je values /\
                steam_util_json_str je "steamid" = Some id /\
                ss = Summary.mk (Some id)
                       (steam_util_json_str je "gameextrainfo")
                       (steam_util_json_str je "gameserverip")
                       (steam_util_json_str je "personaname")
                       (steam_util_json_str je "profileurl")
                       (steam_util_json_str je "realname")
                       (steam_util_json_int_out je "personastate"
                        mod 2 ^ 32)) /\
          Priv.err (snd (fst r))
          = match mu with
            | [] =>
                Some (mkGError STEAM_API_ERROR
                        (ApiCode STEAM_API_ERROR_SUMMARIES)
                        "No friends returned")
            | _ :: _ => None
            end
    | _ =>
        Priv.rdata (snd (fst r)) = Priv.rdata priv /\
        Priv.err (snd (fst r))
        = Some (mkGError STEAM_API_ERROR (ApiCode STEAM_API_ERROR_SUMMARIES)
                  "No friends returned")
    end.
Proof.
  intros priv json w Herr r. subst r.
  assert (Hentry : forall je ss,
            steam_api_summaries_entry je = Some ss <->
            exists id,
              steam_util_json_str je "steamid" = Some id /\
              ss = Summary.mk (Some id)
                     (steam_util_json_str je "gameextrainfo")
                     (steam_util_json_str je "gameserverip")
                     (steam_util_json_str je "personaname")
                     (steam_util_json_str je "profileurl")
                     (steam_util_json_str je "realname")
                     (steam_util_json_int_out je "personastate" mod 2 ^ 32)).
  { intros je ss. unfold steam_api_summaries_entry, to_SteamState.
    destruct (steam_util_json_str je "steamid") as [id|].
    - split.
      + intros H. injection H as <-. exists id. auto.
      + intros (id' & Hid & ->). injection Hid as <-. reflexivity.
    - split; [discriminate | intros (id' & Hid & _); discriminate]. }
  unfold steam_api_summaries_cb, set_api_error.
  destruct (steam_util_json_val json "players" json_array_t)
    as [[| |values| | | | |]|];
    try (rewrite Herr; destruct priv; repeat split).
  rewrite prepend_loop_kept.
  assert (Hin : forall ss,
            In ss (rev (kept steam_api_summaries_entry values)) <->
            exists je id,
              In je values /\
              steam_util_json_str je "steamid" = Some id /\
              ss = Summary.mk (Some id)
                     (steam_util_json_str je "gameextrainfo")
                     (steam_util_json_str je "gameserverip")
                     (steam_util_json_str je "personaname")
                     (steam_util_json_str je "profileurl")
                     (steam_util_json_str je "realname")
                     (steam_util_json_int_out je "personastate" mod 2 ^ 32)).
  { intros ss. rewrite <- in_rev, In_kept. split.
    - intros (je & Hje & Hss). apply Hentry in Hss.
      destruct Hss as (id & Hid & ->). exists je, id. auto.
    - intros (je & id & Hje & Hid & ->). exists je. split; [exact Hje|].
      apply Hentry. exists id. auto. }
  destruct (rev (kept steam_api_summaries_entry values)) as [|ss0 mu] eqn:Hmu;
    cbn [fst snd]; (split; [reflexivity|]); (split; [reflexivity|]).
  - exists []. split; [destruct priv; reflexivity|].
    split; [reflexivity|]. split; [exact Hin|].
    destruct priv; cbn in *. rewrite Herr. reflexivity.
  - exists (ss0 :: mu). split; [destruct priv; reflexivity|].
    split; [reflexivity|]. split; [exact Hin|].
    destruct priv; cbn in *. exact Herr.
Qed.

Lemma summaries_cb_outcome_witness :
  Priv.rdata
    (snd (fst (steam_api_summaries_cb Scenario.summaries_priv
                 Scenario.players_doc Sample.world)))
  = RSummaries
      [Summary.mk (Some "12") None None None None None 1;
       Summary.mk (Some "10") None None (Some "ten") None None 1] /\
  Priv.err
    (snd (fst (steam_api_summaries_cb Scenario.summaries_priv
                 Scenario.players_doc Sample.world)))
  = None /\
  Priv.err
    (snd (fst (steam_api_summaries_cb Scenario.summaries_priv
                 (json_object [("players", json_array [])]) Sample.world)))
  = Some (mkGError STEAM_API_ERROR (ApiCode STEAM_API_ERROR_SUMMARIES)
            "No friends returned").
Proof.
  pose proof (summaries_cb_outcome Scenario.summaries_priv
                Scenario.players_doc Sample.world eq_refl) as (_ & _ & H).
  pose proof (summaries_cb_outcome Scenario.summaries_priv
                (json_object [("players", json_array [])]) Sample.world
                eq_refl) as (_ & _ & Hempty).
  change (steam_util_json_val Scenario.players_doc "players" json_array_t)
    with (Some (json_array
                  [json_object [("steamid", json_string "10");
                                ("personaname", json_string "ten");
                                ("personastate", json_integer 1)];
                   json_object [("personaname", json_string "nobody")];
                   json_object [("steamid", json_string "12");
                                ("personastate", json_integer 4294967297)]]))
    in H.
  change (steam_util_json_val (json_object [("players", json_array [])])
            "players" json_array_t)
    with (Some (json_array [])) in Hempty.
  cbv beta iota in H, Hempty.
  destruct H as (mu & Hdata & Hmu & _ & Herr).
  destruct Hempty as (mu0 & _ & Hmu0 & _ & Herr0).
  vm_compute in Hmu. subst mu. vm_compute in Hmu0. subst mu0.
  split; [exact Hdata|]. split; [exact Herr | exact Herr0].
Defined.

(** ** Which callback writes which part of the session *)

(** X13: the token is written by the Auth callback only, the account id
    and the queue id by the Logon callback only, and the last message id
    by the Logon and Poll callbacks only; the Friends, Relogon, Logoff,
    SendMessage and Summaries callbacks leave the whole session as it
    was, whatever the response. *)
Theorem callbacks_session_frame :
  forall (ty : SteamApiType) (priv : Priv.t) (json : json_value) (w : World),
    let a := api w in
    let a' := api (snd (saf ty priv json w)) in
    match ty with
    | STEAM_API_TYPE_AUTH =>
        Api.umqid a' = Api.umqid a /\ Api.steamid a' = Api.steamid a /\
        Api.lmid a' = Api.lmid a
    | STEAM_API_TYPE_LOGON => Api.token a' = Api.token a
    | STEAM_API_TYPE_POLL =>
        Api.token a' = Api.token a /\ Api.umqid a' = Api.umqid a /\
        Api.steamid a' = Api.steamid a
    | _ => a' = a
    end.
Proof.
  intros ty priv json w.
  destruct ty; cbn [saf];
    unfold steam_api_auth_cb, steam_api_friends_cb, steam_api_logon_cb,
      steam_api_relogon_cb, steam_api_logoff_cb, steam_api_message_cb,
      steam_api_poll_cb, steam_api_summaries_cb;
    break_match; cbn; auto.
Qed.

(** ** Name lookups, whatever the letter case *)

Lemma strcasecmp_eqb_fold (a b : string) :
  no_nul a -> no_nul b ->
  (ascii_strcasecmp a b =? 0) = String.eqb (ascii_fold a) (ascii_fold b).
Proof.
  intros Ha Hb. pose proof (ascii_strcasecmp_zero_iff a b Ha Hb) as H.
  destruct (Z.eqb_spec (ascii_strcasecmp a b) 0) as [E|E];
    destruct (String.eqb_spec (ascii_fold a) (ascii_fold b)) as [F|F];
    tauto.
Qed.

Ltac names_no_nul := cbn; repeat split; discriminate.

(** The message-kind lookup, as a chain of comparisons of the folded
    string. *)
Lemma steam_message_type_from_str_fold (s : string) :
  no_nul s ->
  steam_message_type_from_str (Some s)
  = let f := ascii_fold s in
    if String.eqb f "saytext" then STEAM_MESSAGE_TYPE_SAYTEXT
    else if String.eqb f "emote" then STEAM_MESSAGE_TYPE_EMOTE
    else if String.eqb f "leftconversation" then STEAM_MESSAGE_TYPE_LEFT_CONV
    else if String.eqb f "personarelationship"
         then STEAM_MESSAGE_TYPE_RELATIONSHIP
    else if String.eqb f "personastate" then STEAM_MESSAGE_TYPE_STATE
    else if String.eqb f "typing" then STEAM_MESSAGE_TYPE_TYPING
    else STEAM_MESSAGE_TYPE_LAST.
Proof.
  intros Hs.
  unfold steam_message_type_from_str, message_types_below_LAST.
  cbn [first_named steam_message_type_str g_ascii_strcasecmp].
  rewrite !strcasecmp_eqb_fold by (first [exact Hs | names_no_nul]).
  reflexivity.
Qed.

(** The presence-state lookup, likewise. *)
Lemma steam_state_from_str_fold (s : string) :
  no_nul s ->
  steam_state_from_str (Some s)
  = let f := ascii_fold s in
    if String.eqb f "offline" then STEAM_STATE_OFFLINE
    else if String.eqb f "online" then STEAM_STATE_ONLINE
    else if String.eqb f "busy" then STEAM_STATE_BUSY
    else if String.eqb f "away" then STEAM_STATE_AWAY
    else if String.eqb f "snooze" then STEAM_STATE_SNOOZE
    else STEAM_STATE_OFFLINE.
Proof.
  intros Hs.
  unfold steam_state_from_str, states_below_LAST.
  cbn [first_named steam_state_str g_ascii_strcasecmp].
  rewrite !strcasecmp_eqb_fold by (first [exact Hs | names_no_nul]).
  reflexivity.
Qed.

(** X14: the message-kind lookup inverts the name table and ignores letter
    case: for every kind below LAST and every C string, the lookup answers
    that kind exactly when the string and the kind's name agree after
    folding to lower case; the NULL string and strings that agree with no
    name are answered with LAST. *)
Theorem steam_message_type_from_str_spec :
  steam_message_type_from_str None = STEAM_MESSAGE_TYPE_LAST /\
  forall (s : string) (k : SteamMessageType) (name : string),
    no_nul s ->
    steam_message_type_str k = Some name ->
    (steam_message_type_from_str (Some s) = k <->
     ascii_fold s = ascii_fold name).
Proof.
  split; [reflexivity|].
  intros s k name Hs Hname.
  rewrite (steam_message_type_from_str_fold s Hs). cbv zeta.
  destruct k; cbn in Hname; try discriminate Hname;
    injection Hname as <-; cbn [ascii_fold];
    change (g_ascii_tolower "s") with "s"%char;
    repeat match goal with
           | |- context [String.eqb (ascii_fold s) ?n] =>
               destruct (String.eqb_spec (ascii_fold s) n) as [->|?]
           end;
    split; intros H; try reflexivity; try discriminate H;
    try (vm_compute in H; congruence); try (exfalso; vm_compute in *; congruence).
Qed.

Lemma steam_message_type_from_str_spec_witness :
  steam_message_type_from_str (Some "PersonaState") = STEAM_MESSAGE_TYPE_STATE.
Proof.
  apply (proj2 steam_message_type_from_str_spec "PersonaState"
           STEAM_MESSAGE_TYPE_STATE "personastate").
  - cbn. repeat split; discriminate.
  - reflexivity.
  - reflexivity.
Defined.

(** X15: the presence-state lookup ignores letter case and never guesses:
    a C string that agrees with a state's name after folding to lower
    case is answered with that state, and an answer other than Offline is
    only given to a string that agrees with the answer's name. *)
Theorem steam_state_from_str_spec :
  forall (s : string) (st : SteamState) (name : string),
    no_nul s ->
    steam_state_str st = Some name ->
    (ascii_fold s = ascii_fold name -> steam_state_from_str (Some s) = st) /\
    (steam_state_from_str (Some s) = st ->
     st <> STEAM_STATE_OFFLINE ->
     ascii_fold s = ascii_fold name).
Proof.
  intros s st name Hs Hname.
  rewrite (steam_state_from_str_fold s Hs). cbv zeta.
  destruct st; cbn in Hname; injection Hname as <-; cbn [ascii_fold];
    repeat match goal with
           | |- context [String.eqb (ascii_fold s) ?n] =>
               destruct (String.eqb_spec (ascii_fold s) n) as [->|?]
           end;
    split; intros H; try intros H'; try reflexivity; try discriminate H;
    try congruence; try (vm_compute in H; congruence);
    try (exfalso; vm_compute in *; congruence).
Qed.

Lemma steam_state_from_str_spec_witness :
  steam_state_from_str (Some "AWAY") = STEAM_STATE_AWAY.
Proof.
  apply (proj1 (steam_state_from_str_spec "AWAY" STEAM_STATE_AWAY "Away"
                  ltac:(cbn; repeat split; discriminate) eq_refl)).
  reflexivity.
Defined.

(** ** The chunking loop in general *)

Lemma firstn_100_cons (first : string) (next : list string) :
  firstn 100 (first :: next) = first :: firstn 99 next.
Proof. reflexivity. Qed.

Lemma skipn_cons_tail {A : Type} (n : nat) (l : list A) (x : A) (t : list A) :
  skipn n l = x :: t -> t = skipn (S n) l.
Proof.
  revert l. induction n as [|n IH]; intros l H.
  - cbn in H. subst l. reflexivity.
  - destruct l as [|y l]; [discriminate H|]. cbn in H.
    apply IH in H. exact H.
Qed.

Lemma summaries_request_built (a : Api.t) (first : string)
    (next : list string) :
  Req.set_flags
    (steam_http_req_params_set
       (steam_http_req_new STEAM_API_HOST 443 STEAM_API_PATH_SUMMARIES)
       [("format", PMacro STEAM_API_FORMAT);
        ("access_token", PStr (Api.token a));
        ("steamids", PStr (Some (join_chunk first (firstn 99 next))))])
    [STEAM_HTTP_REQ_FLAG_SSL]
  = summaries_request a (firstn 100 (first :: next)).
Proof.
  unfold summaries_request. rewrite firstn_100_cons, <- join_chunk_concat.
  reflexivity.
Qed.

Lemma summaries_loop_closed (func : option FuncPtr) (data : gpointer)
    (fuel : nat) :
  forall (s : list string) (w : World),
    (List.length s <= fuel)%nat -> (1 <= fuel)%nat ->
    exists w',
      summaries_loop fuel s func data w
      = (if (List.length s mod 101 =? 0)%nat then NullDeref w'
         else Returned w') /\
      api w' = api w /\
      queue_paused w' = queue_paused w /\
      trace w'
      = (trace w
         ++ map (fun k =>
                   HttpReqSend
                     (summaries_request (api w)
                        (firstn 100 (skipn (101 * k) s)))
                     (steam_api_priv_new STEAM_API_TYPE_SUMMARIES func data))
              (seq 0 ((List.length s + 100) / 101)))%list.
Proof.
  induction fuel as [|fuel IH]; intros s w Hlen Hpos; [lia|].
  destruct s as [|first next].
  - exists w. cbn. rewrite app_nil_r. auto.
  - cbn [summaries_loop]. cbv zeta.
    pose proof (length_skipn 100 (first :: next)) as Hsk.
    destruct (skipn 100 (first :: next)) as [|e0 e_next] eqn:He.
    + cbn [List.length] in Hsk, Hlen.
      assert (Hn : (1 <= List.length (first :: next) <= 100)%nat)
        by (cbn [List.length]; lia).
      set (n := List.length (first :: next)) in *.
      assert (Hmod : (n mod 101)%nat = n) by (apply Nat.mod_small; lia).
      assert (Hdiv : ((n + 100) / 101)%nat = 1%nat).
      { symmetry. apply (Nat.div_unique (n + 100) 101 1 (n - 1)); lia. }
      rewrite Hmod, Hdiv.
      destruct (Nat.eqb_spec n 0) as [E|_]; [lia|].
      eexists. split; [reflexivity|].
      split; [reflexivity|]. split; [reflexivity|].
      cbn [seq map]. rewrite Nat.mul_0_r. cbn [skipn].
      rewrite summaries_request_built. reflexivity.
    + apply skipn_cons_tail in He. subst e_next.
      cbn [List.length] in Hsk, Hlen.
      set (w1 := steam_http_req_send w _ _).
      assert (Hlen' : (List.length (skipn 101 (first :: next)) <= fuel)%nat).
      { rewrite length_skipn. cbn [List.length]. lia. }
      assert (Hpos' : (1 <= fuel)%nat) by lia.
      destruct (IH (skipn 101 (first :: next)) w1 Hlen' Hpos')
        as (w' & Hrun & Hapi & Hq & Ht).
      exists w'. rewrite Hrun.
      assert (Hn : exists m, List.length (first :: next) = (m + 1 * 101)%nat
                             /\ List.length (skipn 101 (first :: next)) = m).
      { exists (List.length (first :: next) - 101)%nat.
        rewrite length_skipn. cbn [List.length]. lia. }
      destruct Hn as (m & Hn & Hm). rewrite Hn, Hm. rewrite Hm in Ht.
      rewrite Nat.Div0.mod_add.
      replace (m + 1 * 101 + 100)%nat with (m + 100 + 1 * 101)%nat by lia.
      rewrite Nat.div_add by lia.
      split; [reflexivity|]. split; [exact Hapi|]. split; [exact Hq|].
      rewrite Ht. subst w1. unfold steam_http_req_send, emit.
      cbn [trace api]. rewrite <- app_assoc. f_equal.
      replace ((m + 100) / 101 + 1)%nat with (S ((m + 100) / 101)) by lia.
      cbn [seq map app]. f_equal.
      * rewrite Nat.mul_0_r. cbn [skipn].
        rewrite summaries_request_built. reflexivity.
      * rewrite <- seq_shift, map_map. apply map_ext. intros k.
        rewrite skipn_skipn.
        replace (101 * k + 101)%nat with (101 * S k)%nat by lia.
        reflexivity.
Qed.

(** X16: for a non-empty list of n ids [steam_api_summaries] sends
    ceil(n/101) requests and does nothing else. Request k carries, joined
    by commas, the ids at positions 101k to 101k+99 (fewer at the end of
    the list), with the session's token and a fresh context holding the
    caller's continuation; the id at position 101k+100 is in no request.
    When n is a multiple of 101 the run ends, after the last request, in
    the read through the NULL pointer instead of a return. *)
Theorem steam_api_summaries_closed_form :
  forall (w : World) (friends : list string) (func : option FuncPtr)
         (data : gpointer),
    friends <> [] ->
    exists w',
      steam_api_summaries w friends func data
      = (if (List.length friends mod 101 =? 0)%nat then NullDeref w'
         else Returned w') /\
      api w' = api w /\
      queue_paused w' = queue_paused w /\
      trace w'
      = (trace w
         ++ map (fun k =>
                   HttpReqSend
                     (summaries_request (api w)
                        (firstn 100 (skipn (101 * k) friends)))
                     (steam_api_priv_new STEAM_API_TYPE_SUMMARIES func data))
              (seq 0 ((List.length friends + 100) / 101)))%list.
Proof.
  intros w friends func data Hne.
  unfold steam_api_summaries.
  destruct friends as [|first next]; [contradiction|].
  apply summaries_loop_closed; cbn [List.length]; lia.
Qed.

Lemma steam_api_summaries_closed_form_witness :
  exists w',
    steam_api_summaries Sample.world ["10"; "11"; "12"] (Some 7%nat) 99
    = Returned w' /\
    trace w'
    = [HttpReqSend (summaries_request Sample.session ["10"; "11"; "12"])
         (steam_api_priv_new STEAM_API_TYPE_SUMMARIES (Some 7%nat) 99)].
Proof.
  destruct (steam_api_summaries_closed_form Sample.world ["10"; "11"; "12"]
              (Some 7%nat) 99 ltac:(discriminate))
    as (w' & Hrun & _ & _ & Ht).
  exists w'. split; [exact Hrun | exact Ht].
Defined.

(** ** The request builders side by side *)

(** X17: logon, logoff, friends and summary each hand exactly one request
    to the transport, outside the ordered queue, with a fresh context that
    holds the caller's continuation, and do nothing else: no pause, no
    continuation call, the session as it was. A message of a supported
    kind is sent the same way but through the queue: of these five
    builders the message one is the only one that sets the queued
    flag. *)
Theorem only_message_requests_are_queued :
  forall (w : World) (func : option FuncPtr) (data : gpointer),
    let sent_once (w' : World) (type : SteamApiType) (path : ApiMacro)
                  (queued : bool) :=
      exists r,
        w' = mkWorld (api w) (queue_paused w)
               (trace w
                ++ [HttpReqSend r (steam_api_priv_new type func data)]) /\
        Req.path r = path /\
        is_queued r = queued in
    sent_once (steam_api_logon w func data)
      STEAM_API_TYPE_LOGON STEAM_API_PATH_LOGON false /\
    sent_once (steam_api_logoff w func data)
      STEAM_API_TYPE_LOGOFF STEAM_API_PATH_LOGOFF false /\
    sent_once (steam_api_friends w func data)
      STEAM_API_TYPE_FRIENDS STEAM_API_PATH_FRIENDS false /\
    (forall id,
        sent_once (steam_api_summary w (Some id) func data)
          STEAM_API_TYPE_SUMMARIES STEAM_API_PATH_SUMMARIES false) /\
    (forall sm,
        match Msg.type sm with
        | STEAM_MESSAGE_TYPE_SAYTEXT
        | STEAM_MESSAGE_TYPE_EMOTE
        | STEAM_MESSAGE_TYPE_TYPING =>
            sent_once (steam_api_message w (Some sm) func data)
              STEAM_API_TYPE_MESSAGE STEAM_API_PATH_MESSAGE true
        | _ => True
        end).
Proof.
  intros w func data sent_once. subst sent_once. cbv beta.
  split; [|split; [|split; [|split]]].
  - eexists. split; [reflexivity|]. split; reflexivity.
  - eexists. split; [reflexivity|]. split; reflexivity.
  - eexists. split; [reflexivity|]. split; reflexivity.
  - intros id. eexists. split; [reflexivity|]. split; reflexivity.
  - intros sm. unfold steam_api_message.
    destruct (Msg.type sm); try exact I;
      (eexists; split; [reflexivity|]; split; reflexivity).
Qed.

(** X18: the relogon of the retry path sends the very request
    [steam_api_logon] would send (same endpoint, parameters and flags),
    but pauses the queue first and attaches a context of kind Relogon
    that has no continuation and no user data. *)
Theorem relogon_is_a_paused_logon :
  forall (w : World) (func : option FuncPtr) (data : gpointer),
    exists r,
      steam_api_logon w func data
      = mkWorld (api w) (queue_paused w)
          (trace w
           ++ [HttpReqSend r
                 (steam_api_priv_new STEAM_API_TYPE_LOGON func data)]) /\
      steam_api_relogon w
      = mkWorld (api w) true
          (trace w
           ++ [HttpQueuePause true;
               HttpReqSend r
                 (steam_api_priv_new STEAM_API_TYPE_RELOGON None NULL)]).
Proof.
  intros w func data. eexists. split; [reflexivity|].
  unfold steam_api_relogon, steam_http_req_send, steam_http_queue_pause, emit.
  cbn [api queue_paused trace]. rewrite <- app_assoc. reflexivity.
Qed.

(** X19: a Relogon whose response never reaches the parse callback
    (transport failure, or a body the tokenizer rejects) leaves the world
    as it was: no unpause, so a queue paused for the relogon stays
    paused, no continuation call, the session untouched. What the run
    does change is the Relogon context, whose error becomes the
    transport's or the Parser error with "Relogon: " in front of the
    message, and, after a transport failure, the request's error slot,
    which is emptied; the context having no continuation, the error is
    handed to nobody. *)
Theorem relogon_failure_keeps_queue_paused :
  forall (parse : option string -> json_value + string) (req : Req.t)
         (w : World),
    let r :=
      steam_api_cb parse req
        (steam_api_priv_new STEAM_API_TYPE_RELOGON None NULL) w in
    (forall e,
        Req.err req = Some e ->
        snd r = w /\
        Req.err (fst (fst r)) = None /\
        Priv.err (snd (fst r))
        = Some (mkGError (domain e) (code e) ("Relogon: " ++ message e))) /\
    (forall diag,
        Req.err req = None ->
        parse (Req.body req) = inr diag ->
        snd r = w /\
        fst (fst r) = req /\
        Priv.err (snd (fst r))
        = Some (mkGError STEAM_API_ERROR (ApiCode STEAM_API_ERROR_PARSER)
                  ("Relogon: " ++ "Parser: " ++ diag))).
Proof.
  intros parse req w r. subst r. unfold steam_api_cb. split.
  - intros e He. rewrite He. cbn. repeat split.
  - intros diag He Hp. rewrite He, Hp. cbn. repeat split.
Qed.

Lemma relogon_failure_keeps_queue_paused_witness :
  queue_paused
    (snd (steam_api_cb Sample.parse_not_logged_on Scenario.failed_req
            Sample.relogon_priv (steam_api_relogon Sample.world)))
  = true /\
  Priv.err
    (snd (fst (steam_api_cb Sample.parse_not_logged_on Scenario.failed_req
                 Sample.relogon_priv (steam_api_relogon Sample.world))))
  = Some (mkGError "steam-http-error-quark" (ForeignCode 1)
            "Relogon: Connection timed out") /\
  Priv.err
    (snd (fst (steam_api_cb Scenario.parse_garbage Scenario.logoff_req
                 Sample.relogon_priv (steam_api_relogon Sample.world))))
  = Some (mkGError STEAM_API_ERROR (ApiCode STEAM_API_ERROR_PARSER)
            "Relogon: Parser: Unexpected < at 1:1").
Proof.
  pose proof (proj1 (relogon_failure_keeps_queue_paused
                       Sample.parse_not_logged_on Scenario.failed_req
                       (steam_api_relogon Sample.world))
                Scenario.transport_error eq_refl) as (Hw & _ & Herr).
  pose proof (proj2 (relogon_failure_keeps_queue_paused
                       Scenario.parse_garbage Scenario.logoff_req
                       (steam_api_relogon Sample.world))
                "Unexpected < at 1:1" eq_refl eq_refl) as (_ & _ & Hparse).
  split; [|split; [exact Herr | exact Hparse]].
  unfold Sample.relogon_priv. rewrite Hw. reflexivity.
Defined.

(** ** The state member is narrowed *)

(** A [persona_state] beyond 32 bits reaches the message with its low 32
    bits only, as the assignment to the enumeration-typed member leaves
    it. *)
Example poll_state_is_narrowed :
  steam_api_poll_entry (Some "me")
    (json_object [("steamid_from", json_string "1");
                  ("type", json_string "personarelationship");
                  ("persona_state", json_integer 4294967297)])
  = Some (Msg.mk STEAM_MESSAGE_TYPE_RELATIONSHIP (Some "1") None None 1).
Proof. reflexivity. Qed.
